(** * Curd tracker backend: the entry service of [main.py]

    A shallow embedding of the request handlers of [main.py] (the root
    route, the [/test] diagnostic and the four CRUD routes on
    [/api/entries]) over an explicit model of the document store, and the
    properties of the handlers that the specification states.

    Python dictionaries are finite maps from field names to values, the
    collection is the list of its documents in natural order, the store
    handle [db] is an [option] ([None] is Python's [None]), and a raised
    [HTTPException] is a constructor of the handlers' result type. A
    handler that writes to the store returns the store it leaves behind
    next to its result. The clock and the identifier that the store
    assigns are arguments of the handlers that use them. What is modelled
    is the value a handler returns, before the framework shapes it by the
    declared response model. *)

From Stdlib Require Import QArith.QArith_base.
From Stdlib Require Import Strings.Ascii Strings.String.
From Stdlib Require Import Sorting.Sorted Sorting.Permutation.
From stdpp Require Import gmap strings list fin_maps.

Close Scope Q_scope.
Open Scope string_scope.

(** ** Values held by documents *)

(** A [bson.ObjectId], kept as the lowercase hexadecimal rendering of its
    bytes, which is what [str] gives: twenty-four digits for the twelve
    bytes of an identifier that the store assigns, fewer for an
    identifier built from a string that holds whitespace. *)
Inductive objectid : Type := Oid (hex : string).

#[global] Instance objectid_eq_dec : EqDecision objectid.
Proof. solve_decision. Defined.

(** A [datetime.datetime] as the store hands it back: naive, in UTC. *)
Record datetime : Type := Datetime {
  year : nat; month : nat; day : nat;
  hour : nat; minute : nat; second : nat; microsecond : nat
}.

(** What a field of a stored document or of an outbound dictionary holds:
    a [str], a [float] (a finite double is a rational; the handlers never
    compute with it), an [ObjectId] or a [datetime]. *)
Inductive value : Type :=
  | VStr (s : string)
  | VNum (x : Q)
  | VOid (o : objectid)
  | VDatetime (t : datetime).

Definition is_datetime (v : value) : bool :=
  match v with VDatetime _ => true | _ => false end.

(** ** [ObjectId(...)] and [str(ObjectId)] *)

Definition ascii_between (lo hi c : ascii) : bool :=
  (nat_of_ascii lo <=? nat_of_ascii c)%nat && (nat_of_ascii c <=? nat_of_ascii hi)%nat.

Definition is_hex_digit (c : ascii) : bool :=
  ascii_between "0" "9" c || ascii_between "a" "f" c || ascii_between "A" "F" c.

Definition ascii_lower (c : ascii) : ascii :=
  if ascii_between "A" "Z" c then ascii_of_nat (nat_of_ascii c + 32) else c.

(** A Python [str] is kept as its UTF-8 bytes. A byte of the form
    [10xxxxxx] continues a character, every other byte starts one, so
    that [len(s)] counts the bytes that start a character. *)
Definition is_continuation_byte (c : ascii) : bool :=
  (128 <=? nat_of_ascii c)%nat && (nat_of_ascii c <? 192)%nat.

Fixpoint py_len (s : string) : nat :=
  match s with
  | EmptyString => 0
  | String c s' => if is_continuation_byte c then py_len s' else S (py_len s')
  end.

(** ASCII whitespace: space, tab, line feed, vertical tab, form feed and
    carriage return. *)
Definition is_space (c : ascii) : bool :=
  (nat_of_ascii c =? 32)%nat
  || ((9 <=? nat_of_ascii c)%nat && (nat_of_ascii c <=? 13)%nat).

(** [bytes.fromhex(s)], with the bytes written as lowercase hexadecimal
    digits: whitespace before a byte is skipped, and a byte is two
    adjacent hexadecimal digits; anything else raises [ValueError],
    which is [None] here. *)
Fixpoint fromhex (s : string) : option string :=
  match s with
  | EmptyString => Some EmptyString
  | String c s' =>
      if is_space c then fromhex s'
      else if is_hex_digit c then
        match s' with
        | String c' s'' =>
            if is_hex_digit c' then
              match fromhex s'' with
              | Some rest => Some (String (ascii_lower c) (String (ascii_lower c') rest))
              | None => None
              end
            else None
        | EmptyString => None
        end
      else None
  end.

(** [ObjectId(entry_id)] on a [str], as [bson] validates it: the length
    must be 24 and [bytes.fromhex] must accept the string; anything else
    raises [InvalidId], which is [None] here. A string of length 24 that
    holds whitespace between its bytes is accepted and gives fewer than
    twelve bytes. *)
Definition ObjectId (entry_id : string) : option objectid :=
  if (py_len entry_id =? 24)%nat then
    match fromhex entry_id with
    | Some hex => Some (Oid hex)
    | None => None
    end
  else None.

Definition objectid_str (o : objectid) : string :=
  match o with Oid hex => hex end.

(** ** [datetime.isoformat] *)

Definition digit (n : nat) : ascii := ascii_of_nat (48 + n mod 10).

(** The [w] low-order decimal digits of [n]: Python's ["%0wd" % n] for
    every [n] below [10^w], which the fields of a datetime are. *)
Fixpoint zero_padded (w n : nat) : string :=
  match w with
  | O => ""
  | S w' => zero_padded w' (n / 10) ++ String (digit n) ""
  end.

Definition isoformat_sep (sep : string) (t : datetime) : string :=
  zero_padded 4 (year t) ++ "-" ++ zero_padded 2 (month t) ++ "-" ++
  zero_padded 2 (day t) ++ sep ++
  zero_padded 2 (hour t) ++ ":" ++ zero_padded 2 (minute t) ++ ":" ++
  zero_padded 2 (second t) ++
  (if (microsecond t =? 0)%nat then "" else "." ++ zero_padded 6 (microsecond t)).

Definition isoformat (t : datetime) : string := isoformat_sep "T" t.

(** The shape of an ISO-8601 date and time: [9] in the pattern stands for
    a decimal digit, every other character for itself. *)
Definition is_decimal_digit (c : ascii) : bool := ascii_between "0" "9" c.

Fixpoint has_shape (pattern s : string) : bool :=
  match pattern, s with
  | EmptyString, EmptyString => true
  | String p pattern', String c s' =>
      (if Ascii.eqb p "9" then is_decimal_digit c else Ascii.eqb p c)
      && has_shape pattern' s'
  | _, _ => false
  end.

Definition iso8601 (s : string) : bool :=
  has_shape "9999-99-99T99:99:99" s || has_shape "9999-99-99T99:99:99.999999" s.

Abbreviation document := (gmap string value).

(** [not d] on a dictionary *)
Definition is_empty_dict {V : Type} (d : gmap string V) : bool :=
  match map_to_list d with
  | [] => true
  | _ => false
  end.

(** ** Request payloads *)

(** Modelled from the spec: the schema [CurdEntry] of [schemas.py], which
    is not among the sources. The spec gives a create payload the required
    fields [date] and [time] (strings) and [quantity] and [amount]
    (floating point). *)
Module CurdEntry.
Record t : Type := { date : string; time : string; quantity : Q; amount : Q }.

(** [entry.model_dump()] *)
Definition model_dump (e : t) : document :=
  <["date" := VStr (date e)]> (<["time" := VStr (time e)]>
 (<["quantity" := VNum (quantity e)]> (<["amount" := VNum (amount e)]> ∅))).
End CurdEntry.

(** [class CurdEntryUpdate(BaseModel)]: every field is [Optional] and
    defaults to [None]. *)
Module CurdEntryUpdate.
Record t : Type := {
  date : option string; time : option string;
  quantity : option Q; amount : option Q
}.

Definition set_field (k : string) (v : option value) (d : document) : document :=
  match v with
  | Some x => <[k := x]> d
  | None => d
  end.

(** [payload.model_dump(exclude_none=True)] *)
Definition model_dump_exclude_none (p : t) : document :=
  set_field "date" (VStr <$> date p) (set_field "time" (VStr <$> time p)
 (set_field "quantity" (VNum <$> quantity p) (set_field "amount" (VNum <$> amount p) ∅))).

(** A member of the JSON body of the request: left out, [null], or a
    value of the declared type. *)
Inductive member (A : Type) : Type :=
  | Omitted
  | Null
  | Given (a : A).
Arguments Omitted {A}.
Arguments Null {A}.
Arguments Given {A} a.

Record body : Type := {
  body_date : member string; body_time : member string;
  body_quantity : member Q; body_amount : member Q
}.

(** A field declared [Optional[T] = None] is [None] when the member is
    left out (the default) and when it is [null]. *)
Definition field {A : Type} (m : member A) : option A :=
  match m with
  | Omitted => None
  | Null => None
  | Given a => Some a
  end.

Definition validate (b : body) : t :=
  {| date := field (body_date b); time := field (body_time b);
     quantity := field (body_quantity b); amount := field (body_amount b) |}.
(** The four fields of the payload, and a body in which one of them is
    sent as [null] or is left out. *)
Inductive field_name : Type := Date | Time | Quantity | Amount.

Definition field_key (f : field_name) : string :=
  match f with
  | Date => "date"
  | Time => "time"
  | Quantity => "quantity"
  | Amount => "amount"
  end.

Definition with_null (f : field_name) (b : body) : body :=
  match f with
  | Date => {| body_date := Null; body_time := body_time b;
               body_quantity := body_quantity b; body_amount := body_amount b |}
  | Time => {| body_date := body_date b; body_time := Null;
               body_quantity := body_quantity b; body_amount := body_amount b |}
  | Quantity => {| body_date := body_date b; body_time := body_time b;
                   body_quantity := Null; body_amount := body_amount b |}
  | Amount => {| body_date := body_date b; body_time := body_time b;
                 body_quantity := body_quantity b; body_amount := Null |}
  end.

Definition without (f : field_name) (b : body) : body :=
  match f with
  | Date => {| body_date := Omitted; body_time := body_time b;
               body_quantity := body_quantity b; body_amount := body_amount b |}
  | Time => {| body_date := body_date b; body_time := Omitted;
               body_quantity := body_quantity b; body_amount := body_amount b |}
  | Quantity => {| body_date := body_date b; body_time := body_time b;
                   body_quantity := Omitted; body_amount := body_amount b |}
  | Amount => {| body_date := body_date b; body_time := body_time b;
                 body_quantity := body_quantity b; body_amount := Omitted |}
  end.
End CurdEntryUpdate.

(** The names of the fields a payload can supply. *)
Definition supplied_keys : list string := ["date"; "time"; "quantity"; "amount"].

(** The payload in which no field is supplied. *)
Definition no_fields : CurdEntryUpdate.t :=
  {| CurdEntryUpdate.date := None; CurdEntryUpdate.time := None;
     CurdEntryUpdate.quantity := None; CurdEntryUpdate.amount := None |}.

(** The dictionary handed to [$set]: the supplied fields and the stamp. *)
Definition set_document (payload : CurdEntryUpdate.t) (now : datetime) : document :=
  <["updated_at" := VDatetime now]> (CurdEntryUpdate.model_dump_exclude_none payload).

(** The sort specification of the listing. *)
Definition listing_order : list (string * Z) := [("date", (-1)%Z); ("time", (-1)%Z)].

(** An entry with the given [date] and [time]. *)
Definition dated (date time : string) (doc : document) : Prop :=
  doc !! "date" = Some (VStr date) /\ doc !! "time" = Some (VStr time).

(** ** The document store *)

(** What [db.list_collection_names()] does: it raises an exception with
    a message, or returns the names. *)
Inductive probe : Type :=
  | ProbeRaises (message : string)
  | ProbeReturns (names : list string).

(** The handle [db] of [database.py] when it is not [None]: the
    collection [db[COLL]] and the outcome of the reachability probe. *)
Record Database : Type := {
  curdentry : list document;
  list_collection_names : probe
}.

Definition COLL : string := "curdentry".

Definition with_collection (db : Database) (docs : list document) : Database :=
  {| curdentry := docs; list_collection_names := list_collection_names db |}.

(** The filter [{"_id": oid}] *)
Definition matches_id (oid : objectid) (d : document) : bool :=
  match d !! "_id" with
  | Some (VOid o) => bool_decide (o = oid)
  | _ => false
  end.

(** [collection.find_one({"_id": oid})] *)
Fixpoint find_one (oid : objectid) (docs : list document) : option document :=
  match docs with
  | [] => None
  | d :: rest => if matches_id oid d then Some d else find_one oid rest
  end.

(** [collection.update_one({"_id": oid}, {"$set": updates})]: the first
    matching document gets the fields of [updates]; the result carries
    [matched_count]. *)
Fixpoint update_one (oid : objectid) (updates : document) (docs : list document)
  : list document * nat :=
  match docs with
  | [] => ([], 0)
  | d :: rest =>
      if matches_id oid d then ((updates ∪ d) :: rest, 1)
      else let '(rest', n) := update_one oid updates rest in (d :: rest', n)
  end.

(** [collection.delete_one({"_id": oid})], with [deleted_count]. *)
Fixpoint delete_one (oid : objectid) (docs : list document)
  : list document * nat :=
  match docs with
  | [] => ([], 0)
  | d :: rest =>
      if matches_id oid d then (rest, 1)
      else let '(rest', n) := delete_one oid rest in (d :: rest', n)
  end.

(** [collection.insert_one(data)], where the store assigns [new_oid]. *)
Definition insert_one (new_oid : objectid) (data : document) (docs : list document)
  : list document :=
  (docs ++ [<["_id" := VOid new_oid]> data])%list.

(** How many documents of the collection carry the identifier. The
    store keeps [_id] unique, so that in a collection it maintains the
    count is at most one. *)
Definition count_id (oid : objectid) (docs : list document) : nat :=
  length (filter (fun d => matches_id oid d = true) docs).

(** Two documents that agree on every key that [u] does not set. *)
Definition agree_outside (u a b : document) : Prop :=
  forall k, u !! k = None -> a !! k = b !! k.

(** *** The order of [sort] *)

Definition lex (c1 c2 : comparison) : comparison :=
  match c1 with Eq => c2 | _ => c1 end.

Definition datetime_compare (a b : datetime) : comparison :=
  lex (year a ?= year b)%nat
 (lex (month a ?= month b)%nat
 (lex (day a ?= day b)%nat
 (lex (hour a ?= hour b)%nat
 (lex (minute a ?= minute b)%nat
 (lex (second a ?= second b)%nat
      (microsecond a ?= microsecond b)%nat))))).

(** The store compares values of different kinds by kind: a missing
    field (null) is below every number, numbers below strings, strings
    below identifiers, identifiers below dates. *)
Definition bson_rank (k : option value) : nat :=
  match k with
  | None => 0
  | Some (VNum _) => 1
  | Some (VStr _) => 2
  | Some (VOid _) => 3
  | Some (VDatetime _) => 4
  end.

Definition bson_compare (a b : option value) : comparison :=
  match a, b with
  | Some (VNum x), Some (VNum y) => Qcompare x y
  | Some (VStr x), Some (VStr y) => String.compare x y
  | Some (VOid x), Some (VOid y) => String.compare (objectid_str x) (objectid_str y)
  | Some (VDatetime x), Some (VDatetime y) => datetime_compare x y
  | _, _ => (bson_rank a ?= bson_rank b)%nat
  end.

(** A direction of [-1] reverses the comparison. *)
Definition directed (direction : Z) (c : comparison) : comparison :=
  if (direction <? 0)%Z then CompOpp c else c.

(** The comparison a sort specification such as
    [[("date", -1), ("time", -1)]] defines on documents. *)
Fixpoint compare_by (keys : list (string * Z)) (a b : document) : comparison :=
  match keys with
  | [] => Eq
  | (k, direction) :: keys' =>
      lex (directed direction (bson_compare (a !! k) (b !! k)))
          (compare_by keys' a b)
  end.

Definition comes_before (keys : list (string * Z)) (a b : document) : Prop :=
  compare_by keys a b ≠ Gt.

(** What the place and the [id] of an entry in the listing depend on:
    its [date] and [time], by which the listing is ordered, and its [_id]
    and [id], from which [_serialize] makes the [id]. *)
Definition listing_key (doc : document)
  : option value * option value * option value * option value :=
  (doc !! "date", doc !! "time", doc !! "_id", doc !! "id").

(** The order of the listing, on these keys. *)
Definition listing_key_compare
    (a b : option value * option value * option value * option value) : comparison :=
  lex (directed (-1) (bson_compare a.1.1.1 b.1.1.1))
      (lex (directed (-1) (bson_compare a.1.1.2 b.1.1.2)) Eq).

(** [cursor.sort(keys)], as a stable insertion sort. The store promises
    no order among documents that compare equal. *)
Fixpoint sort_insert (keys : list (string * Z)) (x : document) (l : list document)
  : list document :=
  match l with
  | [] => [x]
  | y :: l' =>
      match compare_by keys x y with
      | Gt => y :: sort_insert keys x l'
      | _ => x :: l
      end
  end.

Fixpoint sort (keys : list (string * Z)) (docs : list document) : list document :=
  match docs with
  | [] => []
  | d :: rest => sort_insert keys d (sort keys rest)
  end.

(** ** Results of the handlers *)

(** A handler returns a value, raises [HTTPException(status_code, detail)],
    or lets another exception escape (the server then answers 500). *)
Inductive result (A : Type) : Type :=
  | Returns (a : A)
  | HTTPException (status_code : nat) (detail : string)
  | Unhandled.
Arguments Returns {A} a.
Arguments HTTPException {A} status_code detail.
Arguments Unhandled {A}.

(** [not doc], where [doc] is a dictionary or [None] *)
Definition not_doc (doc : option document) : bool :=
  match doc with
  | None => true
  | Some d => is_empty_dict d
  end.

(** ** [GET /] *)
Definition read_root : gmap string string :=
  {[ "message" := "Curd Tracker Backend Running" ]}.

(** ** [GET /test] *)

Record status : Type := {
  backend : string;
  database : string;
  database_url : string;
  database_name : string;
  connection_status : string;
  collections : list string
}.

(** The truth value of [os.getenv(name)]: the variable is set and is not
    the empty string. *)
Definition getenv_truthy (environ : gmap string string) (name : string) : bool :=
  match environ !! name with
  | Some v => negb (v =? "")%string
  | None => false
  end.

(** [s[:n]]: the first [n] characters of [s], that is the bytes up to
    the one that starts character [n]. *)
Fixpoint slice_to (n : nat) (s : string) : string :=
  match s with
  | EmptyString => EmptyString
  | String c s' =>
      if is_continuation_byte c then String c (slice_to n s')
      else match n with
           | O => EmptyString
           | S n' => String c (slice_to n' s')
           end
  end.

Definition test_database (environ : gmap string string) (db : option Database) : status :=
  let response :=
    {| backend := "✅ Running";
       database := "❌ Not Available";
       database_url := if getenv_truthy environ "DATABASE_URL" then "✅ Set" else "❌ Not Set";
       database_name := if getenv_truthy environ "DATABASE_NAME" then "✅ Set" else "❌ Not Set";
       connection_status := "Not Connected";
       collections := [] |} in
  match db with
  | None => response
  | Some d =>
      match list_collection_names d with
      | ProbeReturns names =>
          {| backend := backend response;
             database := "✅ Available";
             database_url := database_url response;
             database_name := database_name response;
             connection_status := "Connected";
             collections := names |}
      | ProbeRaises e =>
          {| backend := backend response;
             database := "❌ Error: " ++ slice_to 80 e;
             database_url := database_url response;
             database_name := database_name response;
             connection_status := "Connected";
             collections := [] |}
      end
  end.

(** The dictionary [{"ok": True}] *)
Record ack : Type := { ok : bool }.

Section Handlers.

(** Python's [repr] of a float. It is outside the repository and is only
    reached when the [_id] of a document is a number. *)
Variable float_repr : Q -> string.

(** [str(v)] *)
Definition py_str (v : value) : string :=
  match v with
  | VStr s => s
  | VNum x => float_repr x
  | VOid o => objectid_str o
  | VDatetime t => isoformat_sep " " t
  end.

(** [v.isoformat() if hasattr(v, "isoformat") else v] *)
Definition render_value (v : value) : value :=
  match v with
  | VDatetime t => VStr (isoformat t)
  | _ => v
  end.

(** [d = {**doc}; if "_id" in d: d["id"] = str(d.pop("_id"))] *)
Definition rename_id (doc : document) : document :=
  match doc !! "_id" with
  | Some v => <["id" := VStr (py_str v)]> (delete "_id" doc)
  | None => doc
  end.

(** [_serialize(doc)]. The argument is a dictionary or [None] (what
    [find_one] returns); the guard [if not doc] hands back both [None]
    and the empty dictionary as they are. The loop over [list(d.items())]
    rewrites every value that has an [isoformat] attribute. *)
Definition _serialize (doc : option document) : option document :=
  match doc with
  | None => None
  | Some d0 =>
      if is_empty_dict d0 then Some d0
      else Some (render_value <$> rename_id d0)
  end.

(** ** [GET /api/entries] *)
Definition list_entries (db : option Database) : list (option document) :=
  match db with
  | None => []
  | Some d =>
      let docs := sort [("date", (-1)%Z); ("time", (-1)%Z)] (curdentry d) in
      map (fun doc => _serialize (Some doc)) docs
  end.

(** ** [POST /api/entries] *)

(** Modelled from the spec: [create_document] of [database.py], which is
    not among the sources. By the spec, creating an entry inserts a new
    document made of the payload's fields, stamps [created_at] at
    insertion time ([updated_at] is absent until the first update), and
    the store assigns the identifier; the handler receives the identifier
    as a string. [now] is the clock reading and [new_oid] the identifier
    the store assigns. *)
Definition create_document (d : Database) (entry : CurdEntry.t)
    (now : datetime) (new_oid : objectid) : string * Database :=
  let data := <["created_at" := VDatetime now]> (CurdEntry.model_dump entry) in
  (objectid_str new_oid, with_collection d (insert_one new_oid data (curdentry d))).

Definition create_entry (db : option Database) (entry : CurdEntry.t)
    (now : datetime) (new_oid : objectid)
  : result (option document) * option Database :=
  match db with
  | None => (HTTPException 503 "Database not available", db)
  | Some d =>
      let '(new_id, d') := create_document d entry now new_oid in
      match ObjectId new_id with
      | None => (Unhandled, Some d')
      | Some oid =>
          let doc := find_one oid (curdentry d') in
          (Returns (_serialize doc), Some d')
      end
  end.

(** ** [PUT /api/entries/{entry_id}] *)

(** [now] is [datetime.now(timezone.utc)], in the form in which the store
    keeps it and hands it back. *)
Definition update_entry (db : option Database) (entry_id : string)
    (payload : CurdEntryUpdate.t) (now : datetime)
  : result (option document) * option Database :=
  match db with
  | None => (HTTPException 503 "Database not available", db)
  | Some d =>
      match ObjectId entry_id with
      | None => (HTTPException 400 "Invalid id", db)
      | Some oid =>
          let updates := CurdEntryUpdate.model_dump_exclude_none payload in
          if is_empty_dict updates then
            let doc := find_one oid (curdentry d) in
            if not_doc doc then (HTTPException 404 "Not found", db)
            else (Returns (_serialize doc), db)
          else
            let updates := <["updated_at" := VDatetime now]> updates in
            let '(docs', matched_count) := update_one oid updates (curdentry d) in
            let d' := with_collection d docs' in
            if (matched_count =? 0)%nat then (HTTPException 404 "Not found", Some d')
            else
              let doc := find_one oid (curdentry d') in
              (Returns (_serialize doc), Some d')
      end
  end.

(** The route as a client reaches it: the JSON body is validated into a
    [CurdEntryUpdate] before the handler runs. *)
Definition put_entry (db : option Database) (entry_id : string)
    (body : CurdEntryUpdate.body) (now : datetime)
  : result (option document) * option Database :=
  update_entry db entry_id (CurdEntryUpdate.validate body) now.

(** ** [DELETE /api/entries/{entry_id}] *)

Definition delete_entry (db : option Database) (entry_id : string)
  : result ack * option Database :=
  match db with
  | None => (HTTPException 503 "Database not available", db)
  | Some d =>
      match ObjectId entry_id with
      | None => (HTTPException 400 "Invalid id", db)
      | Some oid =>
          let '(docs', deleted_count) := delete_one oid (curdentry d) in
          let d' := with_collection d docs' in
          if (deleted_count =? 0)%nat then (HTTPException 404 "Not found", Some d')
          else (Returns {| ok := true |}, Some d')
      end
  end.

End Handlers.

(** ** A sample store *)

(** An instance of the float rendering, for running the handlers. *)
Definition sample_float_repr (x : Q) : string := "0.0".

Definition sample_document (hex date time : string) (stamp : datetime) : document :=
  <["_id" := VOid (Oid hex)]> (<["date" := VStr date]> (<["time" := VStr time]>
 (<["quantity" := VNum (Qmake 2 1)]> (<["amount" := VNum (Qmake 7 2)]>
 (<["created_at" := VDatetime stamp]> ∅))))).

Definition sample_e1 : document :=
  sample_document "507f1f77bcf86cd799439011" "2024-01-01" "09:00"
    (Datetime 2024 1 1 9 0 0 0).
Definition sample_e2 : document :=
  sample_document "507f1f77bcf86cd799439012" "2024-01-02" "08:00"
    (Datetime 2024 1 2 8 0 0 0).
Definition sample_e3 : document :=
  sample_document "507f1f77bcf86cd799439013" "2024-01-02" "10:00"
    (Datetime 2024 1 2 10 0 0 0).

Definition sample_db : Database :=
  {| curdentry := [sample_e1; sample_e2; sample_e3];
     list_collection_names := ProbeReturns ["curdentry"] |}.

(** The same documents, held in another order. *)
Definition sample_db_reordered : Database :=
  {| curdentry := [sample_e3; sample_e1; sample_e2];
     list_collection_names := ProbeReturns ["curdentry"] |}.

(** A handle whose probe raises. *)
Definition sample_db_down : Database :=
  {| curdentry := [];
     list_collection_names := ProbeRaises "connection refused" |}.

(** A stamp in the form the store keeps: whole milliseconds, here none. *)
Definition sample_now : datetime := Datetime 2024 1 3 12 30 15 0.

(** The payload [{"quantity": 5}] *)
Definition sample_payload : CurdEntryUpdate.t :=
  {| CurdEntryUpdate.date := None; CurdEntryUpdate.time := None;
     CurdEntryUpdate.quantity := Some (Qmake 5 1); CurdEntryUpdate.amount := None |}.

Definition sample_body : CurdEntryUpdate.body :=
  {| CurdEntryUpdate.body_date := CurdEntryUpdate.Omitted;
     CurdEntryUpdate.body_time := CurdEntryUpdate.Omitted;
     CurdEntryUpdate.body_quantity := CurdEntryUpdate.Given (Qmake 5 1);
     CurdEntryUpdate.body_amount := CurdEntryUpdate.Omitted |}.

Definition sample_entry : CurdEntry.t :=
  {| CurdEntry.date := "2024-01-03"; CurdEntry.time := "07:45";
     CurdEntry.quantity := Qmake 3 1; CurdEntry.amount := Qmake 9 2 |}.

(** * Properties *)

(** ** Comparisons that order their carrier *)

Section Comparisons.
Context {A : Type}.

Record total_comparison (c : A -> A -> comparison) : Prop := {
  cmp_antisym : forall x y, c y x = CompOpp (c x y);
  cmp_lt_trans : forall x y z, c x y = Lt -> c y z = Lt -> c x z = Lt;
  cmp_eq_l : forall x y z, c x y = Eq -> c x z = c y z
}.

Variable c : A -> A -> comparison.
Hypothesis Hc : total_comparison c.

Lemma cmp_refl x : c x x = Eq.
Proof.
  pose proof (cmp_antisym c Hc x x) as H.
  destruct (c x x); simpl in H; congruence.
Qed.

Lemma cmp_eq_sym x y : c x y = Eq -> c y x = Eq.
Proof. intros H. rewrite (cmp_antisym c Hc x y), H. reflexivity. Qed.

Lemma cmp_eq_r x y z : c y z = Eq -> c x y = c x z.
Proof.
  intros H. apply cmp_eq_sym in H.
  pose proof (cmp_eq_l c Hc z y x H) as E.
  rewrite (cmp_antisym c Hc x z), (cmp_antisym c Hc x y) in E.
  destruct (c x y), (c x z); simpl in E; congruence.
Qed.

Lemma cmp_gt_trans x y z : c x y = Gt -> c y z = Gt -> c x z = Gt.
Proof.
  intros H1 H2.
  assert (c z y = Lt) as L1 by (rewrite (cmp_antisym c Hc y z), H2; reflexivity).
  assert (c y x = Lt) as L2 by (rewrite (cmp_antisym c Hc x y), H1; reflexivity).
  pose proof (cmp_lt_trans c Hc z y x L1 L2) as L.
  rewrite (cmp_antisym c Hc z x), L. reflexivity.
Qed.

Lemma cmp_le_trans x y z : c x y <> Gt -> c y z <> Gt -> c x z <> Gt.
Proof.
  intros H1 H2.
  destruct (c x y) eqn:E1; [| |congruence].
  - rewrite (cmp_eq_l c Hc x y z E1). exact H2.
  - destruct (c y z) eqn:E2; [| |congruence].
    + rewrite <- (cmp_eq_r x y z E2), E1. discriminate.
    + rewrite (cmp_lt_trans c Hc x y z E1 E2). discriminate.
Qed.

Lemma cmp_le_total x y : c x y <> Gt \/ c y x <> Gt.
Proof.
  rewrite (cmp_antisym c Hc x y).
  destruct (c x y); simpl; [left|left|right]; discriminate.
Qed.

Lemma total_comparison_opp : total_comparison (fun x y => CompOpp (c x y)).
Proof.
  split.
  - intros x y. rewrite (cmp_antisym c Hc x y). reflexivity.
  - intros x y z H1 H2.
    apply (f_equal CompOpp) in H1, H2. rewrite CompOpp_involutive in H1, H2.
    simpl in H1, H2. rewrite (cmp_gt_trans x y z H1 H2). reflexivity.
  - intros x y z H. apply (f_equal CompOpp) in H.
    rewrite CompOpp_involutive in H. simpl in H.
    rewrite (cmp_eq_l c Hc x y z H). reflexivity.
Qed.

Lemma total_comparison_lex (c' : A -> A -> comparison) :
  total_comparison c' -> total_comparison (fun x y => lex (c x y) (c' x y)).
Proof.
  intros Hc'. split.
  - intros x y. rewrite (cmp_antisym c Hc x y), (cmp_antisym c' Hc' x y).
    destruct (c x y); reflexivity.
  - intros x y z. unfold lex.
    destruct (c x y) eqn:E1; try discriminate.
    + rewrite (cmp_eq_l c Hc x y z E1).
      destruct (c y z) eqn:E2; try discriminate; [|reflexivity].
      apply (cmp_lt_trans c' Hc').
    + intros _. destruct (c y z) eqn:E2; try discriminate.
      * rewrite <- (cmp_eq_r x y z E2), E1. reflexivity.
      * rewrite (cmp_lt_trans c Hc x y z E1 E2). reflexivity.
  - intros x y z. unfold lex.
    destruct (c x y) eqn:E1; try discriminate.
    intros E2. rewrite (cmp_eq_l c Hc x y z E1), (cmp_eq_l c' Hc' x y z E2).
    reflexivity.
Qed.
End Comparisons.

Lemma total_comparison_on {A B : Type} (f : B -> A) (c : A -> A -> comparison) :
  total_comparison c -> total_comparison (fun x y => c (f x) (f y)).
Proof.
  intros Hc. split.
  - intros x y. apply (cmp_antisym c Hc).
  - intros x y z. apply (cmp_lt_trans c Hc).
  - intros x y z. apply (cmp_eq_l c Hc).
Qed.

Lemma total_comparison_nat : total_comparison Nat.compare.
Proof.
  split.
  - intros x y. apply Nat.compare_antisym.
  - intros x y z. rewrite !Nat.compare_lt_iff. lia.
  - intros x y z H. apply Nat.compare_eq_iff in H. subst. reflexivity.
Qed.

Lemma total_comparison_N : total_comparison N.compare.
Proof.
  split.
  - intros x y. apply N.compare_antisym.
  - intros x y z. rewrite !N.compare_lt_iff. lia.
  - intros x y z H. apply N.compare_eq_iff in H. subst. reflexivity.
Qed.

Lemma total_comparison_ascii : total_comparison Ascii.compare.
Proof. exact (total_comparison_on N_of_ascii N.compare total_comparison_N). Qed.

Lemma total_comparison_string : total_comparison String.compare.
Proof.
  pose proof total_comparison_ascii as Ha.
  split.
  - intros x y. apply String.compare_antisym.
  - intros x. induction x as [|a x IH]; intros [|b y] [|d z]; simpl; try congruence.
    destruct (Ascii.compare a b) eqn:E1; try discriminate.
    + rewrite (cmp_eq_l _ Ha a b d E1).
      destruct (Ascii.compare b d); try discriminate; [apply IH | reflexivity].
    + intros _. destruct (Ascii.compare b d) eqn:E2; try discriminate.
      * rewrite <- (cmp_eq_r _ Ha a b d E2), E1. reflexivity.
      * rewrite (cmp_lt_trans _ Ha a b d E1 E2). reflexivity.
  - intros x y z H. apply String.compare_eq_iff in H. subst. reflexivity.
Qed.

Lemma total_comparison_Q : total_comparison Qcompare.
Proof.
  split.
  - intros x y. symmetry. apply Qcompare_antisym.
  - intros x y z. rewrite <- !Qlt_alt. apply Qlt_trans.
  - intros x y z H. apply Qeq_alt in H. rewrite H. reflexivity.
Qed.

Lemma total_comparison_datetime : total_comparison datetime_compare.
Proof.
  unfold datetime_compare.
  repeat (apply total_comparison_lex;
          [apply (total_comparison_on _ Nat.compare total_comparison_nat)|]).
  apply (total_comparison_on _ Nat.compare total_comparison_nat).
Qed.

Lemma total_comparison_bson : total_comparison bson_compare.
Proof.
  pose proof total_comparison_Q as HQ.
  pose proof total_comparison_string as HS.
  pose proof total_comparison_datetime as HD.
  split.
  - intros [[s|x|[o]|t]|] [[s'|x'|[o']|t']|]; simpl; try reflexivity.
    + apply (cmp_antisym _ HS).
    + apply (cmp_antisym _ HQ).
    + apply (cmp_antisym _ HS).
    + apply (cmp_antisym _ HD).
  - intros [[s|x|[o]|t]|] [[s'|x'|[o']|t']|] [[s''|x''|[o'']|t'']|];
      simpl; try discriminate; try reflexivity.
    + apply (cmp_lt_trans _ HS).
    + apply (cmp_lt_trans _ HQ).
    + apply (cmp_lt_trans _ HS).
    + apply (cmp_lt_trans _ HD).
  - intros [[s|x|[o]|t]|] [[s'|x'|[o']|t']|] [[s''|x''|[o'']|t'']|];
      simpl; try discriminate; try reflexivity.
    + apply (cmp_eq_l _ HS).
    + apply (cmp_eq_l _ HQ).
    + apply (cmp_eq_l _ HS).
    + apply (cmp_eq_l _ HD).
Qed.

Lemma total_comparison_directed {A : Type} (direction : Z) (c : A -> A -> comparison) :
  total_comparison c -> total_comparison (fun x y => directed direction (c x y)).
Proof.
  intros Hc. unfold directed. destruct (direction <? 0)%Z.
  - apply total_comparison_opp, Hc.
  - destruct Hc; split; assumption.
Qed.

Lemma total_comparison_compare_by keys : total_comparison (compare_by keys).
Proof.
  induction keys as [|[k direction] keys IH]; simpl.
  - split; intros; reflexivity || discriminate.
  - apply (total_comparison_lex
             (fun a b : document => directed direction (bson_compare (a !! k) (b !! k)))).
    + apply (total_comparison_directed direction
               (fun a b : document => bson_compare (a !! k) (b !! k))).
      apply (total_comparison_on (fun a : document => a !! k) bson_compare).
      apply total_comparison_bson.
    + exact IH.
Qed.

(** ** [sort] returns a sorted rearrangement *)

Lemma sort_insert_perm keys x l : Permutation (x :: l) (sort_insert keys x l).
Proof.
  induction l as [|y l IH]; simpl; [reflexivity|].
  destruct (compare_by keys x y); try reflexivity.
  rewrite perm_swap. apply perm_skip, IH.
Qed.

Lemma sort_perm keys docs : Permutation docs (sort keys docs).
Proof.
  induction docs as [|d docs IH]; simpl; [constructor|].
  rewrite <- sort_insert_perm. apply perm_skip, IH.
Qed.

Lemma sort_insert_sorted keys x l :
  StronglySorted (comes_before keys) l ->
  StronglySorted (comes_before keys) (sort_insert keys x l).
Proof.
  pose proof (total_comparison_compare_by keys) as Hc.
  induction 1 as [|y l Hl IH Hy]; simpl.
  - repeat constructor.
  - assert (compare_by keys x y <> Gt ->
            StronglySorted (comes_before keys) (x :: y :: l)) as Hfront.
    { intros Hxy. constructor; [constructor; assumption|].
      constructor; [exact Hxy|].
      eapply Forall_impl; [exact Hy|]. intros z Hz.
      apply (cmp_le_trans _ Hc x y z); [exact Hxy | exact Hz]. }
    destruct (compare_by keys x y) eqn:E; try (apply Hfront; discriminate).
    constructor; [exact IH|].
    rewrite <- (sort_insert_perm keys x l).
    constructor; [|exact Hy].
    unfold comes_before. rewrite (cmp_antisym _ Hc x y), E. discriminate.
Qed.

Lemma sort_sorted keys docs : StronglySorted (comes_before keys) (sort keys docs).
Proof.
  induction docs as [|d docs IH]; simpl; [constructor|].
  apply sort_insert_sorted, IH.
Qed.

(** ** Dictionaries and the store operations *)

Lemma is_empty_dict_true {V : Type} (d : gmap string V) :
  is_empty_dict d = true <-> d = ∅.
Proof.
  unfold is_empty_dict. rewrite <- map_to_list_empty_iff.
  destruct (map_to_list d); split; congruence.
Qed.

Lemma is_empty_dict_false {V : Type} (d : gmap string V) :
  is_empty_dict d = false <-> d ≠ ∅.
Proof.
  rewrite <- is_empty_dict_true. destruct (is_empty_dict d); split; congruence.
Qed.

Lemma matches_id_lookup oid (d : document) :
  matches_id oid d = true <-> d !! "_id" = Some (VOid oid).
Proof.
  unfold matches_id. destruct (d !! "_id") as [[s|x|o|t]|]; try (split; congruence).
  rewrite bool_decide_eq_true. split; congruence.
Qed.

Lemma matches_id_not_empty oid (d : document) :
  matches_id oid d = true -> is_empty_dict d = false.
Proof.
  rewrite matches_id_lookup, is_empty_dict_false. intros H ->.
  rewrite lookup_empty in H. discriminate.
Qed.

(** A document that [find_one] returns is the first one of the collection
    that carries the identifier. *)
Lemma find_one_Some oid docs doc :
  find_one oid docs = Some doc <->
  exists pre post, docs = (pre ++ doc :: post)%list /\
                   Forall (fun d => matches_id oid d = false) pre /\
                   matches_id oid doc = true.
Proof.
  split.
  - induction docs as [|d docs IH]; simpl; [discriminate|].
    destruct (matches_id oid d) eqn:E.
    + intros [= ->]. exists [], docs. repeat split; [constructor | exact E].
    + intros H. destruct (IH H) as (pre & post & -> & Hpre & Hdoc).
      exists (d :: pre), post. repeat split; [constructor; assumption | exact Hdoc].
  - intros (pre & post & -> & Hpre & Hdoc).
    induction Hpre as [|d pre Hd Hpre IH]; simpl.
    + rewrite Hdoc. reflexivity.
    + rewrite Hd. exact IH.
Qed.

Lemma find_one_None oid docs :
  find_one oid docs = None <-> Forall (fun d => matches_id oid d = false) docs.
Proof.
  induction docs as [|d docs IH]; simpl.
  - split; [constructor | reflexivity].
  - destruct (matches_id oid d) eqn:E.
    + split; [discriminate|]. intros H. inversion H; congruence.
    + rewrite IH. split; [constructor; assumption|]. intros H. inversion H; assumption.
Qed.

Lemma find_one_not_empty oid docs doc :
  find_one oid docs = Some doc -> not_doc (Some doc) = false.
Proof.
  intros H. apply find_one_Some in H as (pre & post & _ & _ & Hdoc).
  simpl. eapply matches_id_not_empty, Hdoc.
Qed.

Lemma update_one_found oid updates pre doc post :
  Forall (fun d => matches_id oid d = false) pre ->
  matches_id oid doc = true ->
  update_one oid updates (pre ++ doc :: post)%list
  = ((pre ++ (updates ∪ doc) :: post)%list, 1).
Proof.
  intros Hpre Hdoc. induction Hpre as [|d pre Hd Hpre IH]; simpl.
  - rewrite Hdoc. reflexivity.
  - rewrite Hd, IH. reflexivity.
Qed.

Lemma update_one_missing oid updates docs :
  find_one oid docs = None -> update_one oid updates docs = (docs, 0).
Proof.
  rewrite find_one_None. induction 1 as [|d docs Hd Hdocs IH]; simpl; [reflexivity|].
  rewrite Hd, IH. reflexivity.
Qed.

Lemma delete_one_found oid pre doc post :
  Forall (fun d => matches_id oid d = false) pre ->
  matches_id oid doc = true ->
  delete_one oid (pre ++ doc :: post)%list = ((pre ++ post)%list, 1).
Proof.
  intros Hpre Hdoc. induction Hpre as [|d pre Hd Hpre IH]; simpl.
  - rewrite Hdoc. reflexivity.
  - rewrite Hd, IH. reflexivity.
Qed.

Lemma delete_one_missing oid docs :
  find_one oid docs = None -> delete_one oid docs = (docs, 0).
Proof.
  rewrite find_one_None. induction 1 as [|d docs Hd Hdocs IH]; simpl; [reflexivity|].
  rewrite Hd, IH. reflexivity.
Qed.

Lemma with_collection_same d : with_collection d (curdentry d) = d.
Proof. destruct d; reflexivity. Qed.

(** ** The update payload *)

Lemma set_field_lookup k v (d : document) j :
  CurdEntryUpdate.set_field k v d !! j
  = if decide (k = j) then match v with Some x => Some x | None => d !! j end
    else d !! j.
Proof.
  unfold CurdEntryUpdate.set_field. destruct v as [x|].
  - rewrite lookup_insert. reflexivity.
  - destruct (decide (k = j)); reflexivity.
Qed.

Lemma model_dump_exclude_none_keys p k :
  k ∉ supplied_keys -> CurdEntryUpdate.model_dump_exclude_none p !! k = None.
Proof.
  intros Hk. unfold CurdEntryUpdate.model_dump_exclude_none.
  rewrite !set_field_lookup, lookup_empty.
  repeat (destruct (decide _) as [<-|_];
          [exfalso; apply Hk; unfold supplied_keys; set_solver|]).
  reflexivity.
Qed.

Lemma model_dump_exclude_none_empty p :
  CurdEntryUpdate.model_dump_exclude_none p = ∅ <-> p = no_fields.
Proof.
  split.
  - intros H. destruct p as [[a|] [b|] [c|] [e|]]; try reflexivity; exfalso;
      unfold CurdEntryUpdate.model_dump_exclude_none in H; simpl in H.
    all: first
      [ apply (f_equal (fun m : document => m !! "date")) in H;
        rewrite lookup_insert_eq, lookup_empty in H; discriminate
      | apply (f_equal (fun m : document => m !! "time")) in H;
        rewrite lookup_insert_eq, lookup_empty in H; discriminate
      | apply (f_equal (fun m : document => m !! "quantity")) in H;
        rewrite lookup_insert_eq, lookup_empty in H; discriminate
      | apply (f_equal (fun m : document => m !! "amount")) in H;
        rewrite lookup_insert_eq, lookup_empty in H; discriminate ].
  - intros ->. reflexivity.
Qed.

Lemma model_dump_exclude_none_lookup p k :
  CurdEntryUpdate.model_dump_exclude_none p !! k
  = if decide (k = "date") then VStr <$> CurdEntryUpdate.date p
    else if decide (k = "time") then VStr <$> CurdEntryUpdate.time p
    else if decide (k = "quantity") then VNum <$> CurdEntryUpdate.quantity p
    else if decide (k = "amount") then VNum <$> CurdEntryUpdate.amount p
    else None.
Proof.
  unfold CurdEntryUpdate.model_dump_exclude_none.
  rewrite !set_field_lookup, lookup_empty.
  repeat (destruct (decide (_ = k)) as [<-|?]; [simpl; repeat case_match; done|]).
  repeat (destruct (decide (k = _)) as [->|?]; [done|]).
  reflexivity.
Qed.

Lemma set_document_lookup payload now k :
  set_document payload now !! k
  = if decide (k = "updated_at") then Some (VDatetime now)
    else CurdEntryUpdate.model_dump_exclude_none payload !! k.
Proof.
  unfold set_document. rewrite lookup_insert.
  destruct (decide ("updated_at" = k)) as [<-|?]; [done|].
  destruct (decide (k = "updated_at")); [congruence | done].
Qed.

Lemma set_document_keeps_id payload now oid (doc : document) :
  matches_id oid doc = true -> matches_id oid (set_document payload now ∪ doc) = true.
Proof.
  rewrite !matches_id_lookup. intros H.
  rewrite lookup_union_r; [exact H|].
  rewrite set_document_lookup, model_dump_exclude_none_lookup. reflexivity.
Qed.

(** ** ISO text of a datetime *)

Lemma digit_is_decimal n : is_decimal_digit (digit n) = true.
Proof.
  unfold digit, is_decimal_digit, ascii_between.
  pose proof (Nat.mod_upper_bound n 10 ltac:(lia)) as H.
  rewrite nat_ascii_embedding by lia.
  change (nat_of_ascii "0") with 48. change (nat_of_ascii "9") with 57.
  apply andb_true_intro. split; apply Nat.leb_le; lia.
Qed.

Lemma isoformat_iso8601 t : iso8601 (isoformat t) = true.
Proof.
  unfold iso8601, isoformat, isoformat_sep.
  destruct (microsecond t =? 0)%nat; cbv [zero_padded String.append];
    cbn -[digit is_decimal_digit Nat.div]; rewrite !digit_is_decimal; reflexivity.
Qed.

(** ** Serialization *)

Section Serialization.

Variable float_repr : Q -> string.

Lemma rename_id_lookup (doc : document) k :
  rename_id float_repr doc !! k
  = match doc !! "_id" with
    | Some v => if decide (k = "id") then Some (VStr (py_str float_repr v))
                else if decide (k = "_id") then None else doc !! k
    | None => doc !! k
    end.
Proof.
  unfold rename_id. destruct (doc !! "_id") as [v|] eqn:E; [|reflexivity].
  rewrite lookup_insert. destruct (decide ("id" = k)) as [<-|Hk].
  - reflexivity.
  - destruct (decide (k = "id")); [congruence|].
    rewrite lookup_delete. destruct (decide ("_id" = k)) as [<-|?].
    + reflexivity.
    + destruct (decide (k = "_id")); [congruence | reflexivity].
Qed.

(** The guard of [_serialize] changes nothing: the empty dictionary is
    also what the rest of the function makes of it. *)
Lemma serialize_Some (doc : document) :
  _serialize float_repr (Some doc) = Some (render_value <$> rename_id float_repr doc).
Proof.
  simpl. destruct (is_empty_dict doc) eqn:E; [|reflexivity].
  apply is_empty_dict_true in E. subst doc.
  unfold rename_id. rewrite lookup_empty, fmap_empty. reflexivity.
Qed.

Lemma serialize_lookup (doc : document) k :
  (render_value <$> rename_id float_repr doc) !! k
  = match doc !! "_id" with
    | Some v => if decide (k = "id") then Some (VStr (py_str float_repr v))
                else if decide (k = "_id") then None else render_value <$> doc !! k
    | None => render_value <$> doc !! k
    end.
Proof.
  rewrite lookup_fmap, rename_id_lookup.
  destruct (doc !! "_id"); [|reflexivity].
  repeat (destruct (decide _)); reflexivity.
Qed.

Lemma render_value_not_datetime v : is_datetime (render_value v) = false.
Proof. destruct v; reflexivity. Qed.

End Serialization.


Lemma no_fields_dec (p : CurdEntryUpdate.t) : {p = no_fields} + {p ≠ no_fields}.
Proof.
  destruct p as [[a|] [b|] [c|] [e|]];
    first [left; reflexivity | right; discriminate].
Defined.

Lemma validate_null_omitted f b :
  CurdEntryUpdate.validate (CurdEntryUpdate.with_null f b)
  = CurdEntryUpdate.validate (CurdEntryUpdate.without f b).
Proof. destruct f; reflexivity. Qed.

Lemma validate_without_lookup f b :
  CurdEntryUpdate.model_dump_exclude_none
    (CurdEntryUpdate.validate (CurdEntryUpdate.without f b))
  !! CurdEntryUpdate.field_key f = None.
Proof. rewrite model_dump_exclude_none_lookup. destruct f; reflexivity. Qed.

Lemma field_key_not_stamp f : CurdEntryUpdate.field_key f ≠ "updated_at".
Proof. destruct f; discriminate. Qed.

(** ** Slices *)

Lemma slice_to_prefix n s : String.prefix (slice_to n s) s = true.
Proof.
  revert n. induction s as [|c s IH]; intros n; simpl; [reflexivity|].
  destruct (is_continuation_byte c); [|destruct n as [|n]; [reflexivity|]]; simpl;
    rewrite IH; destruct (ascii_dec c c); reflexivity || contradiction.
Qed.

Lemma slice_to_length n s : py_len (slice_to n s) = Nat.min n (py_len s).
Proof.
  revert n. induction s as [|c s IH]; intros n; simpl.
  - destruct n; reflexivity.
  - destruct (is_continuation_byte c) eqn:E; simpl.
    + rewrite E. apply IH.
    + destruct n as [|n]; [reflexivity|]. simpl. rewrite E, IH. reflexivity.
Qed.

Lemma slice_to_short n s : py_len s <= n -> slice_to n s = s.
Proof.
  revert n. induction s as [|c s IH]; intros n; simpl; [reflexivity|].
  destruct (is_continuation_byte c).
  - intros H. rewrite IH by exact H. reflexivity.
  - destruct n as [|n]; [lia|]. intros H. rewrite IH by lia. reflexivity.
Qed.

(** Two characters of a message that is not ASCII are two characters,
    not two bytes. *)
Lemma slice_to_characters : slice_to 2 "éàü" = "éà" /\ py_len "éàü" = 3.
Proof. split; reflexivity. Qed.

(** ** The order of the listing on dated entries *)

Lemma comes_before_dated (a b : document) da ta db tb :
  dated da ta a -> dated db tb b ->
  comes_before listing_order a b
  <-> String.compare da db = Gt \/ (da = db /\ String.compare ta tb ≠ Lt).
Proof.
  intros [Ha1 Ha2] [Hb1 Hb2]. unfold comes_before. simpl.
  rewrite Ha1, Ha2, Hb1, Hb2. simpl. unfold directed. simpl.
  destruct (String.compare da db) eqn:E1; simpl.
  - apply String.compare_eq_iff in E1.
    destruct (String.compare ta tb); simpl; split;
      first [ intros _; right; split; [exact E1 | discriminate]
            | intros [?|[_ ?]]; congruence
            | intros ?; exfalso; congruence
            | discriminate ].
  - split; [congruence|]. intros [?|[-> _]]; [discriminate|].
    rewrite (cmp_refl _ total_comparison_string) in E1. discriminate.
  - split; [intros _; left; reflexivity | discriminate].
Qed.

Lemma compare_by_dated (a b : document) da ta db tb :
  dated da ta a -> dated db tb b ->
  compare_by listing_order a b
  = lex (CompOpp (String.compare da db)) (CompOpp (String.compare ta tb)).
Proof.
  intros [Ha1 Ha2] [Hb1 Hb2]. simpl. rewrite Ha1, Ha2, Hb1, Hb2. simpl.
  unfold directed. simpl. destruct (CompOpp (String.compare ta tb)); reflexivity.
Qed.

Lemma permutation_of_three {A : Type} (l : list A) (a b c : A) :
  Permutation l [a; b; c] ->
  l = [a; b; c] \/ l = [a; c; b] \/ l = [b; a; c] \/
  l = [b; c; a] \/ l = [c; a; b] \/ l = [c; b; a].
Proof.
  intros H.
  apply Permutation_cons_inv_r in H as (k1 & k2 & -> & H).
  apply Permutation_length_2_inv in H.
  destruct k1 as [|x [|y [|z k1]]]; simpl in H; destruct H as [H | H];
    try discriminate; simplify_eq; simpl; tauto.
Qed.

Section Claims.

Variable float_repr : Q -> string.

Lemma update_entry_found d entry_id oid payload now pre doc post :
  ObjectId entry_id = Some oid ->
  curdentry d = (pre ++ doc :: post)%list ->
  Forall (fun x => matches_id oid x = false) pre ->
  matches_id oid doc = true ->
  payload ≠ no_fields ->
  update_entry float_repr (Some d) entry_id payload now
  = (Returns (_serialize float_repr (Some (set_document payload now ∪ doc))),
     Some (with_collection d (pre ++ (set_document payload now ∪ doc) :: post)%list)).
Proof.
  intros Hid Hdocs Hpre Hdoc Hp. unfold update_entry. rewrite Hid.
  assert (is_empty_dict (CurdEntryUpdate.model_dump_exclude_none payload) = false) as ->.
  { apply is_empty_dict_false. rewrite model_dump_exclude_none_empty. exact Hp. }
  rewrite Hdocs. fold (set_document payload now).
  rewrite (update_one_found oid _ pre doc post Hpre Hdoc). simpl.
  assert (find_one oid (pre ++ (set_document payload now ∪ doc) :: post)%list
          = Some (set_document payload now ∪ doc)) as ->; [|reflexivity].
  apply find_one_Some. exists pre, post.
  repeat split; [exact Hpre | apply set_document_keeps_id, Hdoc].
Qed.

(** C1. On an existing entry, an update whose payload supplies at least
    one field sets exactly the supplied fields and [updated_at] (the clock
    reading) in that entry, leaves every other field of the entry and
    every other document of the collection as they were, and returns the
    serialization of the resulting entry. *)
Theorem update_entry_changes_only_supplied_fields
    (d : Database) (entry_id : string) (oid : objectid)
    (payload : CurdEntryUpdate.t) (now : datetime) (doc : document) :
  ObjectId entry_id = Some oid ->
  find_one oid (curdentry d) = Some doc ->
  payload ≠ no_fields ->
  exists (doc' : document) (pre post : list document),
    curdentry d = (pre ++ doc :: post)%list /\
    update_entry float_repr (Some d) entry_id payload now
    = (Returns (_serialize float_repr (Some doc')),
       Some (with_collection d (pre ++ doc' :: post)%list)) /\
    find_one oid (pre ++ doc' :: post)%list = Some doc' /\
    doc' !! "date" = match CurdEntryUpdate.date payload with
                     | Some s => Some (VStr s) | None => doc !! "date" end /\
    doc' !! "time" = match CurdEntryUpdate.time payload with
                     | Some s => Some (VStr s) | None => doc !! "time" end /\
    doc' !! "quantity" = match CurdEntryUpdate.quantity payload with
                         | Some x => Some (VNum x) | None => doc !! "quantity" end /\
    doc' !! "amount" = match CurdEntryUpdate.amount payload with
                       | Some x => Some (VNum x) | None => doc !! "amount" end /\
    doc' !! "updated_at" = Some (VDatetime now) /\
    (forall k, k ∉ supplied_keys -> k ≠ "updated_at" -> doc' !! k = doc !! k).
Proof.
  intros Hid Hfind Hp.
  destruct (proj1 (find_one_Some oid _ doc) Hfind) as (pre & post & Hdocs & Hpre & Hdoc).
  exists (set_document payload now ∪ doc), pre, post.
  split; [exact Hdocs|].
  split; [apply (update_entry_found d entry_id oid payload now pre doc post); assumption|].
  split.
  { apply find_one_Some. exists pre, post.
    repeat split; [exact Hpre | apply set_document_keeps_id, Hdoc]. }
  assert (forall k, (set_document payload now ∪ doc) !! k
                    = match set_document payload now !! k with
                      | Some v => Some v | None => doc !! k end) as L.
  { intros k. rewrite lookup_union. destruct (set_document payload now !! k), (doc !! k); reflexivity. }
  repeat split; try (rewrite L, set_document_lookup, model_dump_exclude_none_lookup; simpl;
                     match goal with |- context [ ?f payload ] => destruct (f payload) end;
                     reflexivity).
  - rewrite L, set_document_lookup. reflexivity.
  - intros k Hk Hk'. rewrite L, set_document_lookup.
    destruct (decide (k = "updated_at")); [contradiction|].
    rewrite (model_dump_exclude_none_keys _ _ Hk). reflexivity.
Qed.


(** C4. An update with a well-formed identifier and no supplied field
    never changes the store (so no [updated_at] is set or modified); with
    the store available it returns the serialization of the entry as it
    is stored, in which [updated_at] is the stored one if there is one,
    or answers 404 when no entry carries the identifier. *)
Theorem update_entry_empty_payload_is_noop
    (db : option Database) (entry_id : string) (oid : objectid) (now : datetime) :
  ObjectId entry_id = Some oid ->
  snd (update_entry float_repr db entry_id no_fields now) = db /\
  (forall d, db = Some d ->
     fst (update_entry float_repr db entry_id no_fields now)
     = match find_one oid (curdentry d) with
       | Some doc => Returns (_serialize float_repr (Some doc))
       | None => HTTPException 404 "Not found"
       end) /\
  (forall d doc, db = Some d -> find_one oid (curdentry d) = Some doc ->
     exists out, _serialize float_repr (Some doc) = Some out /\
                 out !! "updated_at" = render_value <$> doc !! "updated_at").
Proof.
  intros Hid. unfold update_entry. rewrite Hid.
  change (CurdEntryUpdate.model_dump_exclude_none no_fields) with (∅ : document).
  change (is_empty_dict (∅ : document)) with true. cbv iota.
  split; [|split].
  - destruct db as [d|]; [|reflexivity].
    destruct (find_one oid (curdentry d)) as [doc|] eqn:E; [|reflexivity].
    rewrite (find_one_not_empty oid _ doc E). reflexivity.
  - intros d ->.
    destruct (find_one oid (curdentry d)) as [doc|] eqn:E; [|reflexivity].
    rewrite (find_one_not_empty oid _ doc E). reflexivity.
  - intros d doc -> E. eexists. split; [apply serialize_Some|].
    rewrite serialize_lookup.
    destruct (doc !! "_id"); reflexivity.
Qed.

(** C7. Without a store handle the list operation returns the empty
    list; it raises nothing. *)
Theorem list_entries_without_store : list_entries float_repr None = [].
Proof. reflexivity. Qed.

(** C10. Update and delete test the store handle before they look at
    the identifier: without a handle they answer 503 whatever the
    identifier is, and an answer of 400 only comes with a handle. *)
Theorem store_check_precedes_id_validation
    (entry_id : string) (payload : CurdEntryUpdate.t) (now : datetime) :
  update_entry float_repr None entry_id payload now
  = (HTTPException 503 "Database not available", None) /\
  delete_entry None entry_id = (HTTPException 503 "Database not available", None) /\
  (forall db detail,
     fst (update_entry float_repr db entry_id payload now) = HTTPException 400 detail ->
     db ≠ None /\ ObjectId entry_id = None) /\
  (forall db detail,
     fst (delete_entry db entry_id) = HTTPException 400 detail ->
     db ≠ None /\ ObjectId entry_id = None).
Proof.
  split; [reflexivity|]. split; [reflexivity|]. split.
  - intros [d|] detail; [|discriminate]. unfold update_entry.
    destruct (ObjectId entry_id) as [oid|]; [|intros _; split; [discriminate | reflexivity]].
    destruct (is_empty_dict _).
    + destruct (not_doc _); discriminate.
    + destruct (update_one _ _ _) as [docs' n]. destruct (n =? 0)%nat; discriminate.
  - intros [d|] detail; [|discriminate]. unfold delete_entry.
    destruct (ObjectId entry_id) as [oid|]; [|intros _; split; [discriminate | reflexivity]].
    destruct (delete_one _ _) as [docs' n]. destruct (n =? 0)%nat; discriminate.
Qed.

(** C5. With the store available and a fresh, well-formed identifier
    assigned by the store, creating an entry appends one document made of
    the payload's fields, [created_at] (the clock reading) and the
    assigned [_id], and returns that document serialized: the payload's
    fields, [created_at] in ISO form and [id], the identifier as a
    string. Without a store handle the answer is 503. *)
Theorem create_entry_inserts_and_returns
    (d : Database) (entry : CurdEntry.t) (now : datetime) (new_oid : objectid) :
  ObjectId (objectid_str new_oid) = Some new_oid ->
  find_one new_oid (curdentry d) = None ->
  let stored : document :=
    <["_id" := VOid new_oid]>
      (<["created_at" := VDatetime now]> (CurdEntry.model_dump entry)) in
  create_entry float_repr (Some d) entry now new_oid
  = (Returns (_serialize float_repr (Some stored)),
     Some (with_collection d (curdentry d ++ [stored])%list)) /\
  _serialize float_repr (Some stored)
  = Some (<["id" := VStr (objectid_str new_oid)]>
            (<["created_at" := VStr (isoformat now)]> (CurdEntry.model_dump entry))) /\
  create_entry float_repr None entry now new_oid
  = (HTTPException 503 "Database not available", None).
Proof.
  intros Hwf Hfresh stored. split; [|split; [|reflexivity]].
  - unfold create_entry, create_document. rewrite Hwf.
    unfold with_collection at 1. simpl curdentry. unfold insert_one. fold stored.
    assert (find_one new_oid (curdentry d ++ [stored])%list = Some stored) as ->;
      [|reflexivity].
    apply find_one_Some. exists (curdentry d), [].
    repeat split; [apply find_one_None, Hfresh|].
    apply matches_id_lookup. unfold stored. apply lookup_insert_eq.
  - rewrite serialize_Some. reflexivity.
Qed.

(** C6. [_serialize] drops [_id] and puts its string under [id], turns
    every datetime value into its ISO text (a string of the ISO-8601
    shape) and keeps every other value, so that no datetime is left; and
    every entry that list, create or update returns is [_serialize]
    applied to a document of the collection. *)
Theorem serialization_is_uniform :
  (forall doc : document, exists out : document,
     _serialize float_repr (Some doc) = Some out /\
     out !! "_id" = None /\
     (forall v, doc !! "_id" = Some v -> out !! "id" = Some (VStr (py_str float_repr v))) /\
     (forall o, doc !! "_id" = Some (VOid o) -> out !! "id" = Some (VStr (objectid_str o))) /\
     (forall k t, k ≠ "_id" -> (k = "id" -> doc !! "_id" = None) ->
        doc !! k = Some (VDatetime t) ->
        out !! k = Some (VStr (isoformat t)) /\ iso8601 (isoformat t) = true) /\
     (forall k v, k ≠ "_id" -> (k = "id" -> doc !! "_id" = None) ->
        doc !! k = Some v -> is_datetime v = false -> out !! k = Some v) /\
     (forall k v, out !! k = Some v -> is_datetime v = false)) /\
  (forall d e, In e (list_entries float_repr (Some d)) ->
     exists doc, In doc (curdentry d) /\ e = _serialize float_repr (Some doc)) /\
  (forall db entry now new_oid e db',
     create_entry float_repr db entry now new_oid = (Returns e, db') ->
     exists d' oid, db' = Some d' /\
       e = _serialize float_repr (find_one oid (curdentry d'))) /\
  (forall db entry_id payload now e db',
     update_entry float_repr db entry_id payload now = (Returns e, db') ->
     exists d' oid, db' = Some d' /\
       e = _serialize float_repr (find_one oid (curdentry d'))).
Proof.
  split; [|split; [|split]].
  - intros doc. exists (render_value <$> rename_id float_repr doc).
    split; [apply serialize_Some|].
    split. { rewrite serialize_lookup. destruct (doc !! "_id"); reflexivity. }
    split. { intros v Hv. rewrite serialize_lookup, Hv. reflexivity. }
    split. { intros o Hv. rewrite serialize_lookup, Hv. reflexivity. }
    split. { intros k t Hk Hk' Hd. split; [|apply isoformat_iso8601].
             rewrite serialize_lookup.
             destruct (doc !! "_id") eqn:E; [|rewrite Hd; reflexivity].
             destruct (decide (k = "id")) as [->|?]; [specialize (Hk' eq_refl); congruence|].
             destruct (decide (k = "_id")); [contradiction|]. rewrite Hd. reflexivity. }
    split. { intros k v Hk Hk' Hd Hv. rewrite serialize_lookup.
             assert (render_value v = v) as Hr by (destruct v; [reflexivity..|discriminate]).
             destruct (doc !! "_id") eqn:E; [|rewrite Hd; simpl; congruence].
             destruct (decide (k = "id")) as [->|?]; [specialize (Hk' eq_refl); congruence|].
             destruct (decide (k = "_id")); [contradiction|]. rewrite Hd. simpl. congruence. }
    intros k v. rewrite lookup_fmap. destruct (rename_id float_repr doc !! k); [|discriminate].
    intros [= <-]. apply render_value_not_datetime.
  - intros d e. unfold list_entries. rewrite in_map_iff.
    intros (doc & <- & Hin). exists doc. split; [|reflexivity].
    eapply Permutation_in; [symmetry; apply sort_perm | exact Hin].
  - intros [d|] entry now new_oid e db'; [|discriminate].
    unfold create_entry. destruct (create_document d entry now new_oid) as [new_id d''].
    destruct (ObjectId new_id) as [oid|]; [|discriminate].
    intros [= <- <-]. exists d'', oid. split; reflexivity.
  - intros [d|] entry_id payload now e db'; [|discriminate].
    unfold update_entry. destruct (ObjectId entry_id) as [oid|]; [|discriminate].
    destruct (is_empty_dict _).
    + destruct (not_doc _); [discriminate|]. intros [= <- <-].
      exists d, oid. split; reflexivity.
    + destruct (update_one _ _ _) as [docs' n]. destruct (n =? 0)%nat; [discriminate|].
      intros [= <- <-]. eexists _, oid. split; reflexivity.
Qed.

(** C8. A request body that sends a field as [null] gets the same
    response and leaves the same store as the body that leaves the field
    out; and in both cases the entry keeps the value it had in that
    field. *)
Theorem null_field_is_omitted_field
    (db : option Database) (entry_id : string) (b : CurdEntryUpdate.body)
    (f : CurdEntryUpdate.field_name) (now : datetime) :
  put_entry float_repr db entry_id (CurdEntryUpdate.with_null f b) now
  = put_entry float_repr db entry_id (CurdEntryUpdate.without f b) now /\
  (forall d oid doc b',
     b' = CurdEntryUpdate.with_null f b \/ b' = CurdEntryUpdate.without f b ->
     db = Some d ->
     ObjectId entry_id = Some oid ->
     find_one oid (curdentry d) = Some doc ->
     exists d' doc',
       snd (put_entry float_repr db entry_id b' now) = Some d' /\
       find_one oid (curdentry d') = Some doc' /\
       doc' !! CurdEntryUpdate.field_key f = doc !! CurdEntryUpdate.field_key f).
Proof.
  unfold put_entry. rewrite validate_null_omitted. split; [reflexivity|].
  intros d oid doc b' Hb' -> Hid Hfind.
  assert (CurdEntryUpdate.validate b'
          = CurdEntryUpdate.validate (CurdEntryUpdate.without f b)) as ->.
  { destruct Hb' as [-> | ->]; [apply validate_null_omitted | reflexivity]. }
  pose proof (validate_without_lookup f b) as Hnone.
  set (payload := CurdEntryUpdate.validate (CurdEntryUpdate.without f b)) in *.
  destruct (no_fields_dec payload) as [Hp | Hp].
  - exists d, doc. rewrite Hp. unfold update_entry. rewrite Hid.
    change (CurdEntryUpdate.model_dump_exclude_none no_fields) with (∅ : document).
    change (is_empty_dict (∅ : document)) with true. cbv iota.
    rewrite Hfind, (find_one_not_empty oid _ doc Hfind).
    split; [reflexivity|]. split; reflexivity.
  - destruct (proj1 (find_one_Some oid _ doc) Hfind) as (pre & post & Hdocs & Hpre & Hdoc).
    rewrite (update_entry_found d entry_id oid payload now pre doc post Hid Hdocs Hpre Hdoc Hp).
    eexists _, (set_document payload now ∪ doc). split; [reflexivity|]. split.
    + apply find_one_Some. exists pre, post.
      repeat split; [exact Hpre | apply set_document_keeps_id, Hdoc].
    + rewrite lookup_union_r; [reflexivity|].
      rewrite set_document_lookup.
      destruct (decide _) as [E|_]; [destruct (field_key_not_stamp f E) | exact Hnone].
Qed.

(** C9. The status that [/test] returns always has its six fields; the
    two configuration fields each take one of two values; and when the
    probe of the store raises, the status is still returned, with the
    first eighty characters of the error message in [database]. *)
Theorem test_database_reports_status
    (environ : gmap string string) (db : option Database) :
  let r := test_database environ db in
  backend r = "✅ Running" /\
  (database_url r = "✅ Set" \/ database_url r = "❌ Not Set") /\
  (database_name r = "✅ Set" \/ database_name r = "❌ Not Set") /\
  (db = None ->
     database r = "❌ Not Available" /\ connection_status r = "Not Connected" /\
     collections r = []) /\
  (forall d names, db = Some d -> list_collection_names d = ProbeReturns names ->
     database r = "✅ Available" /\ connection_status r = "Connected" /\
     collections r = names) /\
  (forall d e, db = Some d -> list_collection_names d = ProbeRaises e ->
     database r = "❌ Error: " ++ slice_to 80 e /\
     String.prefix (slice_to 80 e) e = true /\
     py_len (slice_to 80 e) = Nat.min 80 (py_len e) /\
     collections r = []).
Proof.
  assert (forall v : bool,
            (if v then "✅ Set" else "❌ Not Set") = "✅ Set" \/
            (if v then "✅ Set" else "❌ Not Set") = "❌ Not Set") as Hset
    by (intros [|]; [left | right]; reflexivity).
  unfold test_database.
  destruct db as [d|]; [destruct (list_collection_names d) as [msg|l] eqn:E|]; simpl;
    (split; [reflexivity|]); (split; [apply Hset|]); (split; [apply Hset|]).
  - split; [discriminate|]. split.
    + intros d0 names [= <-]. rewrite E. discriminate.
    + intros d0 e [= <-]. rewrite E. intros [= <-].
      split; [reflexivity|]. split; [apply slice_to_prefix|].
      split; [apply slice_to_length | reflexivity].
  - split; [discriminate|]. split.
    + intros d0 names [= <-]. rewrite E. intros [= <-]. repeat split.
    + intros d0 e [= <-]. rewrite E. discriminate.
  - split; [intros _; repeat split|]. split; discriminate.
Qed.

(** C2. With the store available, the listing is the serialization of a
    rearrangement of the collection in which every entry comes before all
    the entries after it in the order "later date first, and on the same
    date later time first"; so the entries dated 2024-01-01 09:00,
    2024-01-02 08:00 and 2024-01-02 10:00, however they are stored, are
    listed as 2024-01-02 10:00, 2024-01-02 08:00, 2024-01-01 09:00. *)
Theorem list_entries_ordered :
  (forall d, exists docs,
     Permutation (curdentry d) docs /\
     StronglySorted (comes_before listing_order) docs /\
     list_entries float_repr (Some d)
     = map (fun doc => _serialize float_repr (Some doc)) docs) /\
  (forall (a b : document) da ta db tb,
     dated da ta a -> dated db tb b ->
     (comes_before listing_order a b
      <-> String.compare da db = Gt \/ (da = db /\ String.compare ta tb ≠ Lt))) /\
  (forall d e1 e2 e3,
     dated "2024-01-01" "09:00" e1 ->
     dated "2024-01-02" "08:00" e2 ->
     dated "2024-01-02" "10:00" e3 ->
     Permutation (curdentry d) [e1; e2; e3] ->
     list_entries float_repr (Some d)
     = [_serialize float_repr (Some e3); _serialize float_repr (Some e2);
        _serialize float_repr (Some e1)]).
Proof.
  split; [|split].
  - intros d. exists (sort listing_order (curdentry d)).
    split; [apply sort_perm|]. split; [apply sort_sorted | reflexivity].
  - intros a b da ta db tb. apply comes_before_dated.
  - intros d e1 e2 e3 H1 H2 H3 Hperm.
    assert (compare_by listing_order e1 e2 = Gt) as C12
      by (rewrite (compare_by_dated e1 e2 _ _ _ _ H1 H2); reflexivity).
    assert (compare_by listing_order e1 e3 = Gt) as C13
      by (rewrite (compare_by_dated e1 e3 _ _ _ _ H1 H3); reflexivity).
    assert (compare_by listing_order e2 e1 = Lt) as C21
      by (rewrite (compare_by_dated e2 e1 _ _ _ _ H2 H1); reflexivity).
    assert (compare_by listing_order e2 e3 = Gt) as C23
      by (rewrite (compare_by_dated e2 e3 _ _ _ _ H2 H3); reflexivity).
    assert (compare_by listing_order e3 e1 = Lt) as C31
      by (rewrite (compare_by_dated e3 e1 _ _ _ _ H3 H1); reflexivity).
    assert (compare_by listing_order e3 e2 = Lt) as C32
      by (rewrite (compare_by_dated e3 e2 _ _ _ _ H3 H2); reflexivity).
    unfold list_entries. fold listing_order.
    apply permutation_of_three in Hperm.
    destruct Hperm as [-> | [-> | [-> | [-> | [-> | ->]]]]];
      cbn [sort sort_insert];
      repeat first [ rewrite C12 | rewrite C13 | rewrite C21
                   | rewrite C23 | rewrite C31 | rewrite C32
                   | progress cbn [sort_insert] ];
      cbn [map]; reflexivity.
Qed.

End Claims.


(** ** The theorems at the sample store *)

Lemma update_entry_changes_only_supplied_fields_witness :
  exists (doc' : document) (pre post : list document),
    curdentry sample_db = (pre ++ sample_e1 :: post)%list /\
    update_entry sample_float_repr (Some sample_db) "507f1f77bcf86cd799439011"
      sample_payload sample_now
    = (Returns (_serialize sample_float_repr (Some doc')),
       Some (with_collection sample_db (pre ++ doc' :: post)%list)) /\
    find_one (Oid "507f1f77bcf86cd799439011") (pre ++ doc' :: post)%list = Some doc' /\
    doc' !! "date" = sample_e1 !! "date" /\
    doc' !! "time" = sample_e1 !! "time" /\
    doc' !! "quantity" = Some (VNum (Qmake 5 1)) /\
    doc' !! "amount" = sample_e1 !! "amount" /\
    doc' !! "updated_at" = Some (VDatetime sample_now) /\
    (forall k, k ∉ supplied_keys -> k ≠ "updated_at" -> doc' !! k = sample_e1 !! k).
Proof.
  apply (update_entry_changes_only_supplied_fields sample_float_repr sample_db
           "507f1f77bcf86cd799439011" (Oid "507f1f77bcf86cd799439011")
           sample_payload sample_now sample_e1).
  - reflexivity.
  - reflexivity.
  - discriminate.
Defined.

Lemma list_entries_ordered_witness :
  list_entries sample_float_repr (Some sample_db)
  = [_serialize sample_float_repr (Some sample_e3);
     _serialize sample_float_repr (Some sample_e2);
     _serialize sample_float_repr (Some sample_e1)].
Proof.
  apply (proj2 (proj2 (list_entries_ordered sample_float_repr))
           sample_db sample_e1 sample_e2 sample_e3).
  - split; reflexivity.
  - split; reflexivity.
  - split; reflexivity.
  - apply Permutation_refl.
Defined.


Lemma update_entry_empty_payload_is_noop_witness :
  ObjectId "507f1f77bcf86cd799439012" = Some (Oid "507f1f77bcf86cd799439012") /\
  snd (update_entry sample_float_repr (Some sample_db) "507f1f77bcf86cd799439012"
         no_fields sample_now) = Some sample_db /\
  fst (update_entry sample_float_repr (Some sample_db) "507f1f77bcf86cd799439012"
         no_fields sample_now)
  = Returns (_serialize sample_float_repr (Some sample_e2)).
Proof.
  split; [reflexivity|].
  destruct (update_entry_empty_payload_is_noop sample_float_repr (Some sample_db)
              "507f1f77bcf86cd799439012" (Oid "507f1f77bcf86cd799439012") sample_now
              eq_refl) as (Hstore & Hresult & _).
  split; [exact Hstore|].
  exact (Hresult sample_db eq_refl).
Defined.

Lemma create_entry_inserts_and_returns_witness :
  ObjectId (objectid_str (Oid "507f1f77bcf86cd799439014"))
  = Some (Oid "507f1f77bcf86cd799439014") /\
  find_one (Oid "507f1f77bcf86cd799439014") (curdentry sample_db) = None /\
  fst (create_entry sample_float_repr (Some sample_db) sample_entry sample_now
         (Oid "507f1f77bcf86cd799439014"))
  = Returns (Some (<["id" := VStr "507f1f77bcf86cd799439014"]>
                     (<["created_at" := VStr (isoformat sample_now)]>
                        (CurdEntry.model_dump sample_entry)))).
Proof.
  split; [reflexivity|]. split; [reflexivity|].
  destruct (create_entry_inserts_and_returns sample_float_repr sample_db sample_entry
              sample_now (Oid "507f1f77bcf86cd799439014") eq_refl eq_refl)
    as (Hcreate & Hout & _).
  rewrite Hcreate. unfold fst. rewrite Hout. reflexivity.
Defined.

Lemma serialization_is_uniform_witness :
  exists out : document,
    _serialize sample_float_repr (Some sample_e1) = Some out /\
    out !! "_id" = None /\
    out !! "id" = Some (VStr "507f1f77bcf86cd799439011") /\
    out !! "created_at" = Some (VStr "2024-01-01T09:00:00") /\
    out !! "date" = Some (VStr "2024-01-01").
Proof.
  destruct (proj1 (serialization_is_uniform sample_float_repr) sample_e1)
    as (out & Hser & Hno & _ & Hid & Hiso & Hkeep & _).
  exists out. split; [exact Hser|]. split; [exact Hno|].
  split; [exact (Hid (Oid "507f1f77bcf86cd799439011") eq_refl)|].
  split.
  - apply (Hiso "created_at" (Datetime 2024 1 1 9 0 0 0)).
    + discriminate.
    + discriminate.
    + reflexivity.
  - apply (Hkeep "date" (VStr "2024-01-01")).
    + discriminate.
    + discriminate.
    + reflexivity.
    + reflexivity.
Defined.

Lemma null_field_is_omitted_field_witness :
  exists d' doc',
    snd (put_entry sample_float_repr (Some sample_db) "507f1f77bcf86cd799439011"
           (CurdEntryUpdate.with_null CurdEntryUpdate.Amount sample_body) sample_now)
    = Some d' /\
    find_one (Oid "507f1f77bcf86cd799439011") (curdentry d') = Some doc' /\
    doc' !! "amount" = sample_e1 !! "amount".
Proof.
  apply (proj2 (null_field_is_omitted_field sample_float_repr (Some sample_db)
                  "507f1f77bcf86cd799439011" sample_body CurdEntryUpdate.Amount
                  sample_now)
           sample_db (Oid "507f1f77bcf86cd799439011") sample_e1
           (CurdEntryUpdate.with_null CurdEntryUpdate.Amount sample_body)).
  - left. reflexivity.
  - reflexivity.
  - reflexivity.
  - reflexivity.
Defined.

Lemma test_database_reports_status_witness :
  database (test_database ∅ (Some sample_db_down)) = "❌ Error: connection refused" /\
  collections (test_database ∅ (Some sample_db_down)) = [] /\
  database (test_database ∅ (Some sample_db)) = "✅ Available" /\
  collections (test_database ∅ (Some sample_db)) = ["curdentry"].
Proof.
  destruct (test_database_reports_status ∅ (Some sample_db_down))
    as (_ & _ & _ & _ & _ & Hdown).
  destruct (Hdown sample_db_down "connection refused" eq_refl eq_refl)
    as (Hdb & _ & _ & Hcoll).
  destruct (test_database_reports_status ∅ (Some sample_db))
    as (_ & _ & _ & _ & Hup & _).
  destruct (Hup sample_db ["curdentry"] eq_refl eq_refl) as (Hdb' & _ & Hcoll').
  split; [exact Hdb|]. split; [exact Hcoll|]. split; [exact Hdb' | exact Hcoll'].
Defined.

Lemma store_check_precedes_id_validation_witness :
  fst (update_entry sample_float_repr (Some sample_db) "not-an-id" sample_payload sample_now)
  = HTTPException 400 "Invalid id" /\
  Some sample_db ≠ None /\ ObjectId "not-an-id" = None.
Proof.
  split; [reflexivity|].
  apply (proj1 (proj2 (proj2 (store_check_precedes_id_validation sample_float_repr
                                "not-an-id" sample_payload sample_now)))
           (Some sample_db) "Invalid id").
  reflexivity.
Defined.


(** * Further properties of the handlers *)

(** ** More on the store operations *)

Lemma count_id_cons oid (d : document) docs :
  count_id oid (d :: docs)
  = if matches_id oid d then S (count_id oid docs) else count_id oid docs.
Proof.
  unfold count_id. rewrite filter_cons.
  destruct (decide (matches_id oid d = true)) as [E|E].
  - rewrite E. reflexivity.
  - apply not_true_is_false in E. rewrite E. reflexivity.
Qed.

Lemma count_id_zero oid docs : count_id oid docs = 0 <-> find_one oid docs = None.
Proof.
  induction docs as [|d docs IH]; [split; reflexivity|].
  rewrite count_id_cons. simpl. destruct (matches_id oid d).
  - split; discriminate.
  - exact IH.
Qed.

Lemma count_id_split oid pre (doc : document) post :
  Forall (fun d => matches_id oid d = false) pre ->
  matches_id oid doc = true ->
  count_id oid (pre ++ doc :: post)%list = S (count_id oid post).
Proof.
  intros Hpre Hdoc. induction Hpre as [|d pre Hd Hpre IH]; simpl.
  - rewrite count_id_cons, Hdoc. reflexivity.
  - rewrite count_id_cons, Hd. exact IH.
Qed.

Lemma find_one_app_none oid pre post :
  Forall (fun d => matches_id oid d = false) pre ->
  find_one oid (pre ++ post)%list = find_one oid post.
Proof.
  induction 1 as [|d pre Hd Hpre IH]; simpl; [reflexivity|].
  rewrite Hd. exact IH.
Qed.

Lemma matches_id_union oid (u doc : document) :
  u !! "_id" = None -> matches_id oid (u ∪ doc) = matches_id oid doc.
Proof.
  intros Hu. unfold matches_id. rewrite lookup_union_r by exact Hu. reflexivity.
Qed.

Lemma matches_id_inj oid oid' (doc : document) :
  matches_id oid doc = true -> matches_id oid' doc = true -> oid' = oid.
Proof. rewrite !matches_id_lookup. congruence. Qed.

Lemma update_one_length oid u docs : length (update_one oid u docs).1 = length docs.
Proof.
  induction docs as [|d docs IH]; simpl; [reflexivity|].
  destruct (matches_id oid d); [reflexivity|].
  destruct (update_one oid u docs) as [rest n]. simpl in *. rewrite IH. reflexivity.
Qed.

Lemma update_one_keeps_field oid (u : document) docs k :
  u !! k = None ->
  map (fun doc : document => doc !! k) (update_one oid u docs).1
  = map (fun doc : document => doc !! k) docs.
Proof.
  intros Hu. induction docs as [|d docs IH]; simpl; [reflexivity|].
  destruct (matches_id oid d).
  - simpl. rewrite lookup_union_r by exact Hu. reflexivity.
  - destruct (update_one oid u docs) as [rest n]. simpl in *. rewrite IH. reflexivity.
Qed.

Lemma update_one_find_other oid oid' (u : document) docs :
  oid' ≠ oid -> u !! "_id" = None ->
  find_one oid' (update_one oid u docs).1 = find_one oid' docs.
Proof.
  intros Hne Hu. induction docs as [|d docs IH]; simpl; [reflexivity|].
  destruct (matches_id oid d) eqn:E.
  - simpl. rewrite (matches_id_union oid' u d Hu).
    destruct (matches_id oid' d) eqn:E'; [|reflexivity].
    destruct (Hne (matches_id_inj oid oid' d E E')).
  - destruct (update_one oid u docs) as [rest n]. simpl in *. rewrite IH. reflexivity.
Qed.

Lemma delete_one_find_other oid oid' docs :
  oid' ≠ oid -> find_one oid' (delete_one oid docs).1 = find_one oid' docs.
Proof.
  intros Hne. induction docs as [|d docs IH]; simpl; [reflexivity|].
  destruct (matches_id oid d) eqn:E.
  - simpl. destruct (matches_id oid' d) eqn:E'; [|reflexivity].
    destruct (Hne (matches_id_inj oid oid' d E E')).
  - destruct (delete_one oid docs) as [rest n]. simpl in *. rewrite IH. reflexivity.
Qed.

Lemma set_document_no_id payload now : set_document payload now !! "_id" = None.
Proof. rewrite set_document_lookup, model_dump_exclude_none_lookup. reflexivity. Qed.

Lemma set_document_other_key payload now k :
  k ∉ supplied_keys -> k ≠ "updated_at" -> set_document payload now !! k = None.
Proof.
  intros Hk Hk'. rewrite set_document_lookup.
  destruct (decide (k = "updated_at")); [contradiction|].
  apply model_dump_exclude_none_keys, Hk.
Qed.

Lemma render_value_fixed v : is_datetime v = false -> render_value v = v.
Proof. destruct v; simpl; congruence. Qed.

Lemma fmap_render_fixed (m : document) :
  (forall k v, m !! k = Some v -> is_datetime v = false) -> render_value <$> m = m.
Proof.
  intros H. apply map_eq. intros k. rewrite lookup_fmap.
  destruct (m !! k) as [v|] eqn:E; [|reflexivity].
  simpl. rewrite (render_value_fixed v (H k v E)). reflexivity.
Qed.

Section MoreProperties.

Variable float_repr : Q -> string.

Lemma rename_id_absent (doc : document) :
  doc !! "_id" = None -> rename_id float_repr doc = doc.
Proof. intros H. unfold rename_id. rewrite H. reflexivity. Qed.

Lemma serialize_no_datetime (doc : document) k v :
  (render_value <$> rename_id float_repr doc) !! k = Some v -> is_datetime v = false.
Proof.
  rewrite lookup_fmap. destruct (rename_id float_repr doc !! k); [|discriminate].
  intros [= <-]. apply render_value_not_datetime.
Qed.

Lemma serialize_no_underscore_id (doc : document) :
  (render_value <$> rename_id float_repr doc) !! "_id" = None.
Proof. rewrite serialize_lookup. destruct (doc !! "_id"); reflexivity. Qed.

Lemma update_entry_missing d entry_id oid payload now :
  ObjectId entry_id = Some oid ->
  find_one oid (curdentry d) = None ->
  update_entry float_repr (Some d) entry_id payload now
  = (HTTPException 404 "Not found", Some d).
Proof.
  intros Hid Hnone. unfold update_entry. rewrite Hid.
  destruct (is_empty_dict _).
  - rewrite Hnone. reflexivity.
  - rewrite (update_one_missing oid _ _ Hnone). simpl.
    rewrite with_collection_same. reflexivity.
Qed.

Lemma update_entry_no_fields d entry_id oid now doc :
  ObjectId entry_id = Some oid ->
  find_one oid (curdentry d) = Some doc ->
  update_entry float_repr (Some d) entry_id no_fields now
  = (Returns (_serialize float_repr (Some doc)), Some d).
Proof.
  intros Hid Hfind. unfold update_entry. rewrite Hid.
  change (CurdEntryUpdate.model_dump_exclude_none no_fields) with (∅ : document).
  change (is_empty_dict (∅ : document)) with true. cbv iota.
  rewrite Hfind, (find_one_not_empty oid _ doc Hfind). reflexivity.
Qed.

Lemma delete_entry_missing d entry_id oid :
  ObjectId entry_id = Some oid ->
  find_one oid (curdentry d) = None ->
  delete_entry (Some d) entry_id = (HTTPException 404 "Not found", Some d).
Proof.
  intros Hid Hnone. unfold delete_entry. rewrite Hid.
  rewrite (delete_one_missing oid _ Hnone). simpl.
  rewrite with_collection_same. reflexivity.
Qed.

Lemma delete_entry_found d entry_id oid pre doc post :
  ObjectId entry_id = Some oid ->
  curdentry d = (pre ++ doc :: post)%list ->
  Forall (fun x => matches_id oid x = false) pre ->
  matches_id oid doc = true ->
  delete_entry (Some d) entry_id
  = (Returns {| ok := true |}, Some (with_collection d (pre ++ post)%list)).
Proof.
  intros Hid Hdocs Hpre Hdoc. unfold delete_entry. rewrite Hid, Hdocs.
  rewrite (delete_one_found oid pre doc post Hpre Hdoc). reflexivity.
Qed.

(** X1. Serializing twice is serializing once: the output of
    [_serialize] has no [_id] and no datetime left, so a second pass
    changes nothing. *)
Theorem serialize_idempotent (doc : option document) :
  _serialize float_repr (_serialize float_repr doc) = _serialize float_repr doc.
Proof.
  destruct doc as [d|]; [|reflexivity].
  rewrite serialize_Some, serialize_Some. f_equal.
  rewrite rename_id_absent by apply serialize_no_underscore_id.
  apply fmap_render_fixed. intros k v. apply serialize_no_datetime.
Qed.

(** X2. [_serialize] hands a dictionary back unchanged exactly when it
    has no [_id] key and none of its values is a datetime. *)
Theorem serialize_unchanged_iff (doc : document) :
  _serialize float_repr (Some doc) = Some doc
  <-> doc !! "_id" = None /\
      (forall k v, doc !! k = Some v -> is_datetime v = false).
Proof.
  rewrite serialize_Some. split.
  - intros [= H].
    assert (doc !! "_id" = None) as Hid.
    { rewrite <- H. apply serialize_no_underscore_id. }
    split; [exact Hid|]. intros k v Hk.
    apply (serialize_no_datetime doc k v). rewrite H. exact Hk.
  - intros [Hid Hv]. rewrite (rename_id_absent doc Hid).
    rewrite (fmap_render_fixed doc Hv). reflexivity.
Qed.

(** X3. [_serialize] keeps the set of keys, except that [_id], when
    present, is replaced by [id]. *)
Theorem serialize_keys (doc out : document) :
  _serialize float_repr (Some doc) = Some out ->
  dom out = match doc !! "_id" with
            | Some _ => {["id"]} ∪ dom doc ∖ {["_id"]}
            | None => dom doc
            end.
Proof.
  rewrite serialize_Some. intros [= <-]. rewrite dom_fmap_L. unfold rename_id.
  destruct (doc !! "_id"); [|reflexivity].
  rewrite dom_insert_L, dom_delete_L. reflexivity.
Qed.

(** X4. Deleting an existing entry answers [{"ok": True}] and removes
    the first document that carries the identifier; the documents before
    and after it stay, in their order, and the collection is one shorter. *)
Theorem delete_entry_removes_the_entry
    (d : Database) (entry_id : string) (oid : objectid) (doc : document) :
  ObjectId entry_id = Some oid ->
  find_one oid (curdentry d) = Some doc ->
  exists pre post,
    curdentry d = (pre ++ doc :: post)%list /\
    find_one oid pre = None /\
    delete_entry (Some d) entry_id
    = (Returns {| ok := true |}, Some (with_collection d (pre ++ post)%list)) /\
    S (length (pre ++ post)%list) = length (curdentry d).
Proof.
  intros Hid Hfind.
  destruct (proj1 (find_one_Some oid _ doc) Hfind) as (pre & post & Hdocs & Hpre & Hdoc).
  exists pre, post. split; [exact Hdocs|].
  split; [apply find_one_None, Hpre|].
  split; [apply (delete_entry_found d entry_id oid pre doc post); assumption|].
  rewrite Hdocs, !length_app. simpl. lia.
Qed.

(** X5. When at most one document carries the identifier, a successful
    delete leaves no document with it: the entry can no longer be found,
    a second delete answers 404 and so does an update. *)
Theorem delete_entry_then_gone
    (d : Database) (entry_id : string) (oid : objectid)
    (payload : CurdEntryUpdate.t) (now : datetime) (r : ack) (db' : option Database) :
  ObjectId entry_id = Some oid ->
  count_id oid (curdentry d) <= 1 ->
  delete_entry (Some d) entry_id = (Returns r, db') ->
  exists d', db' = Some d' /\
    find_one oid (curdentry d') = None /\
    delete_entry db' entry_id = (HTTPException 404 "Not found", db') /\
    update_entry float_repr db' entry_id payload now
    = (HTTPException 404 "Not found", db').
Proof.
  intros Hid Hcount Hdel.
  destruct (find_one oid (curdentry d)) as [doc|] eqn:Hfind.
  - destruct (proj1 (find_one_Some oid _ doc) Hfind) as (pre & post & Hdocs & Hpre & Hdoc).
    rewrite (delete_entry_found d entry_id oid pre doc post Hid Hdocs Hpre Hdoc) in Hdel.
    injection Hdel as _ <-. eexists. split; [reflexivity|].
    assert (find_one oid (pre ++ post)%list = None) as Hgone.
    { rewrite (find_one_app_none oid pre post Hpre). apply count_id_zero.
      rewrite Hdocs, (count_id_split oid pre doc post Hpre Hdoc) in Hcount. lia. }
    split; [exact Hgone|]. split.
    + apply (delete_entry_missing _ entry_id oid Hid). exact Hgone.
    + apply (update_entry_missing _ entry_id oid payload now Hid). exact Hgone.
  - rewrite (delete_entry_missing d entry_id oid Hid Hfind) in Hdel. discriminate.
Qed.

(** What [update_entry] does with a store handle, case by case. *)
Lemma update_entry_cases d entry_id payload now :
  update_entry float_repr (Some d) entry_id payload now
  = match ObjectId entry_id with
    | None => (HTTPException 400 "Invalid id", Some d)
    | Some oid =>
        match find_one oid (curdentry d) with
        | None => (HTTPException 404 "Not found", Some d)
        | Some doc =>
            if no_fields_dec payload
            then (Returns (_serialize float_repr (Some doc)), Some d)
            else (Returns (_serialize float_repr (Some (set_document payload now ∪ doc))),
                  Some (with_collection d
                          (update_one oid (set_document payload now) (curdentry d)).1))
        end
    end.
Proof.
  destruct (ObjectId entry_id) as [oid|] eqn:Hid.
  - destruct (find_one oid (curdentry d)) as [doc|] eqn:Hfind.
    + destruct (no_fields_dec payload) as [-> | Hp].
      * apply (update_entry_no_fields d entry_id oid now doc Hid Hfind).
      * destruct (proj1 (find_one_Some oid _ doc) Hfind)
          as (pre & post & Hdocs & Hpre & Hdoc).
        rewrite (update_entry_found float_repr d entry_id oid payload now pre doc post
                   Hid Hdocs Hpre Hdoc Hp).
        rewrite Hdocs, (update_one_found oid _ pre doc post Hpre Hdoc). reflexivity.
    + apply (update_entry_missing d entry_id oid payload now Hid Hfind).
  - unfold update_entry. rewrite Hid. reflexivity.
Qed.

(** What [delete_entry] does with a store handle, case by case. *)
Lemma delete_entry_cases d entry_id :
  delete_entry (Some d) entry_id
  = match ObjectId entry_id with
    | None => (HTTPException 400 "Invalid id", Some d)
    | Some oid =>
        match find_one oid (curdentry d) with
        | None => (HTTPException 404 "Not found", Some d)
        | Some doc =>
            (Returns {| ok := true |},
             Some (with_collection d (delete_one oid (curdentry d)).1))
        end
    end.
Proof.
  destruct (ObjectId entry_id) as [oid|] eqn:Hid.
  - destruct (find_one oid (curdentry d)) as [doc|] eqn:Hfind.
    + destruct (proj1 (find_one_Some oid _ doc) Hfind)
        as (pre & post & Hdocs & Hpre & Hdoc).
      rewrite (delete_entry_found d entry_id oid pre doc post Hid Hdocs Hpre Hdoc).
      rewrite Hdocs, (delete_one_found oid pre doc post Hpre Hdoc). reflexivity.
    + apply (delete_entry_missing d entry_id oid Hid Hfind).
  - unfold delete_entry. rewrite Hid. reflexivity.
Qed.

(** X6. The answers of an update when the calls to the store return,
    and when each is given: 503 exactly without a store handle, 400
    exactly with a handle and an identifier that [ObjectId] refuses, 404
    exactly when [ObjectId] accepts the identifier and no document carries
    it, and an entry exactly when a document carries it. The handler
    raises no [HTTPException] with another status, and the entry it
    returns is never [None]. *)
Theorem update_entry_outcomes
    (db : option Database) (entry_id : string) (payload : CurdEntryUpdate.t)
    (now : datetime) :
  let r := fst (update_entry float_repr db entry_id payload now) in
  (r = HTTPException 503 "Database not available" <-> db = None) /\
  (r = HTTPException 400 "Invalid id" <-> db ≠ None /\ ObjectId entry_id = None) /\
  (r = HTTPException 404 "Not found"
   <-> exists d oid, db = Some d /\ ObjectId entry_id = Some oid /\
                     find_one oid (curdentry d) = None) /\
  ((exists e, r = Returns (Some e))
   <-> exists d oid doc, db = Some d /\ ObjectId entry_id = Some oid /\
                         find_one oid (curdentry d) = Some doc) /\
  r ≠ Returns None /\
  (forall code detail, r = HTTPException code detail ->
     code = 503 \/ code = 400 \/ code = 404).
Proof.
  cbv zeta. destruct db as [d|]; [|simpl].
  - rewrite update_entry_cases.
    destruct (ObjectId entry_id) as [oid|] eqn:Hid;
      [destruct (find_one oid (curdentry d)) as [doc|] eqn:Hfind;
       [destruct (no_fields_dec payload); rewrite serialize_Some|]|]; cbn [fst].
    all: repeat split; try discriminate; try congruence.
    all: try (intros (? & ? & ?); congruence).
    all: try (intros (? & ? & ? & ?); congruence).
    all: try (intros (? & ? & ? & ? & ?); congruence).
    all: try (intros (? & ? & ? & ? & ? & ?); congruence).
    all: try (intros [? ?]; congruence).
    all: try (intros _; eauto 10).
    all: try (intros ? ? [= <- <-]; auto).
  - repeat split; try discriminate; try congruence.
    + intros [H _]. congruence.
    + intros (? & ? & ? & _). discriminate.
    + intros (? & ?). discriminate.
    + intros (? & ? & ? & ? & _). discriminate.
    + intros ? ? [= <- <-]. auto.
Qed.

(** X7. The answers of a delete when the calls to the store return, and
    when each is given: 503 exactly without a store handle, 400 exactly
    with a handle and an identifier that [ObjectId] refuses, 404 exactly
    when [ObjectId] accepts the identifier and no document carries it,
    and [{"ok": True}] exactly when a document carries it. The handler
    raises no [HTTPException] with another status. *)
Theorem delete_entry_outcomes (db : option Database) (entry_id : string) :
  let r := fst (delete_entry db entry_id) in
  (r = HTTPException 503 "Database not available" <-> db = None) /\
  (r = HTTPException 400 "Invalid id" <-> db ≠ None /\ ObjectId entry_id = None) /\
  (r = HTTPException 404 "Not found"
   <-> exists d oid, db = Some d /\ ObjectId entry_id = Some oid /\
                     find_one oid (curdentry d) = None) /\
  (r = Returns {| ok := true |}
   <-> exists d oid doc, db = Some d /\ ObjectId entry_id = Some oid /\
                         find_one oid (curdentry d) = Some doc) /\
  (forall code detail, r = HTTPException code detail ->
     code = 503 \/ code = 400 \/ code = 404).
Proof.
  cbv zeta. destruct db as [d|]; [|simpl].
  - rewrite delete_entry_cases.
    destruct (ObjectId entry_id) as [oid|] eqn:Hid;
      [destruct (find_one oid (curdentry d)) as [doc|] eqn:Hfind|]; cbn [fst].
    all: repeat split; try discriminate; try congruence.
    all: try (intros (? & ? & ?); congruence).
    all: try (intros (? & ? & ? & ?); congruence).
    all: try (intros (? & ? & ? & ? & ?); congruence).
    all: try (intros (? & ? & ? & ? & ? & ?); congruence).
    all: try (intros [? ?]; congruence).
    all: try (intros _; eauto 10).
    all: try (intros ? ? [= <- <-]; auto).
  - repeat split; try discriminate; try congruence.
    + intros [H _]. congruence.
    + intros (? & ? & ? & _). discriminate.
    + intros (? & ? & ? & ? & _). discriminate.
    + intros ? ? [= <- <-]. auto.
Qed.

(** X8. An update or a delete that raises leaves the store exactly as it
    was. *)
Theorem failed_write_keeps_store
    (db : option Database) (entry_id : string) (payload : CurdEntryUpdate.t)
    (now : datetime) (code : nat) (detail : string) :
  (fst (update_entry float_repr db entry_id payload now) = HTTPException code detail ->
   snd (update_entry float_repr db entry_id payload now) = db) /\
  (fst (delete_entry db entry_id) = HTTPException code detail ->
   snd (delete_entry db entry_id) = db).
Proof.
  destruct db as [d|]; [|split; reflexivity].
  rewrite update_entry_cases, delete_entry_cases.
  destruct (ObjectId entry_id) as [oid|]; [|split; reflexivity].
  destruct (find_one oid (curdentry d)) as [doc|]; [|split; reflexivity].
  split; [destruct (no_fields_dec payload)|]; discriminate.
Qed.

Lemma union_absorb (u m : document) : u ∪ (u ∪ m) = u ∪ m.
Proof.
  apply map_eq. intros k. rewrite !lookup_union.
  destruct (u !! k), (m !! k); reflexivity.
Qed.

Lemma update_one_fst_found oid (u : document) docs doc :
  u !! "_id" = None ->
  find_one oid docs = Some doc ->
  find_one oid (update_one oid u docs).1 = Some (u ∪ doc).
Proof.
  intros Hu Hfind.
  destruct (proj1 (find_one_Some oid _ doc) Hfind) as (pre & post & -> & Hpre & Hdoc).
  rewrite (update_one_found oid u pre doc post Hpre Hdoc). simpl.
  apply find_one_Some. exists pre, post. repeat split; [exact Hpre|].
  rewrite (matches_id_union oid u doc Hu). exact Hdoc.
Qed.

Lemma update_one_twice oid (u : document) docs :
  u !! "_id" = None ->
  (update_one oid u (update_one oid u docs).1).1 = (update_one oid u docs).1.
Proof.
  intros Hu. induction docs as [|d docs IH]; simpl; [reflexivity|].
  destruct (matches_id oid d) eqn:E.
  - simpl. rewrite (matches_id_union oid u d Hu), E. simpl.
    rewrite union_absorb. reflexivity.
  - destruct (update_one oid u docs) as [rest n]. simpl in *. rewrite E.
    destruct (update_one oid u rest) as [rest' n']. simpl in *. rewrite IH. reflexivity.
Qed.

(** X9. An update never adds, removes or reorders documents, and in no
    document does it touch a field other than the four of the payload and
    [updated_at]: identifiers and [created_at] stay as they were. *)
Theorem update_entry_keeps_other_fields
    (d : Database) (entry_id : string) (payload : CurdEntryUpdate.t) (now : datetime) :
  exists d',
    snd (update_entry float_repr (Some d) entry_id payload now) = Some d' /\
    length (curdentry d') = length (curdentry d) /\
    list_collection_names d' = list_collection_names d /\
    (forall k, k ∉ supplied_keys -> k ≠ "updated_at" ->
       map (fun doc : document => doc !! k) (curdentry d')
       = map (fun doc : document => doc !! k) (curdentry d)).
Proof.
  rewrite update_entry_cases.
  destruct (ObjectId entry_id) as [oid|]; [|exists d; repeat split].
  destruct (find_one oid (curdentry d)) as [doc|]; [|exists d; repeat split].
  destruct (no_fields_dec payload); [exists d; repeat split|].
  eexists. split; [reflexivity|]. simpl.
  split; [apply update_one_length|]. split; [reflexivity|].
  intros k Hk Hk'. apply update_one_keeps_field, set_document_other_key; assumption.
Qed.

(** X10. After a successful update, an update without fields (a plain
    read of the entry) returns the same entry and leaves the store as the
    first update left it. *)
Theorem update_entry_then_read_back
    (db db' : option Database) (entry_id : string) (payload : CurdEntryUpdate.t)
    (now now' : datetime) (e : option document) :
  update_entry float_repr db entry_id payload now = (Returns e, db') ->
  update_entry float_repr db' entry_id no_fields now' = (Returns e, db').
Proof.
  destruct db as [d|]; [|discriminate]. rewrite update_entry_cases.
  destruct (ObjectId entry_id) as [oid|] eqn:Hid; [|discriminate].
  destruct (find_one oid (curdentry d)) as [doc|] eqn:Hfind; [|discriminate].
  destruct (no_fields_dec payload) as [Hp|Hp]; intros [= <- <-].
  - apply (update_entry_no_fields d entry_id oid now' doc Hid Hfind).
  - apply (update_entry_no_fields _ entry_id oid now' _ Hid). simpl.
    apply update_one_fst_found; [apply set_document_no_id | exact Hfind].
Qed.

(** X11. Repeating an update with the same payload at the same clock
    reading gives the same answer and the same store as the first time. *)
Theorem update_entry_idempotent
    (db db' : option Database) (entry_id : string) (payload : CurdEntryUpdate.t)
    (now : datetime) (r : result (option document)) :
  update_entry float_repr db entry_id payload now = (r, db') ->
  update_entry float_repr db' entry_id payload now = (r, db').
Proof.
  destruct db as [d|]; [|intros [= <- <-]; reflexivity].
  rewrite update_entry_cases.
  destruct (ObjectId entry_id) as [oid|] eqn:Hid.
  2: { intros [= <- <-]. rewrite update_entry_cases, Hid. reflexivity. }
  destruct (find_one oid (curdentry d)) as [doc|] eqn:Hfind.
  2: { intros [= <- <-]. rewrite update_entry_cases, Hid, Hfind. reflexivity. }
  destruct (no_fields_dec payload) as [Hp|Hp] eqn:Hdec; intros [= <- <-].
  - rewrite update_entry_cases, Hid, Hfind, Hdec. reflexivity.
  - rewrite update_entry_cases, Hid. simpl curdentry.
    rewrite (update_one_fst_found oid _ _ doc (set_document_no_id payload now) Hfind).
    rewrite Hdec, union_absorb.
    rewrite (update_one_twice oid _ _ (set_document_no_id payload now)).
    reflexivity.
Qed.

(** X12. The entry that a successful update with at least one field
    returns is the serialization of the entry as the store holds it after
    the update: it carries the identifier as [id] and no [_id], as
    [updated_at] the ISO text of the stored [updated_at] (the stamp that
    the update wrote, in the form the store keeps it), each supplied
    field with its new value, and every other field of the stored entry,
    serialized. *)
Theorem update_entry_response
    (d : Database) (entry_id : string) (oid : objectid)
    (payload : CurdEntryUpdate.t) (now : datetime) (doc : document) :
  ObjectId entry_id = Some oid ->
  find_one oid (curdentry d) = Some doc ->
  payload ≠ no_fields ->
  exists (d' : Database) (stored out : document),
    update_entry float_repr (Some d) entry_id payload now
    = (Returns (Some out), Some d') /\
    find_one oid (curdentry d') = Some stored /\
    _serialize float_repr (Some stored) = Some out /\
    out !! "id" = Some (VStr (objectid_str oid)) /\
    out !! "_id" = None /\
    out !! "updated_at" = render_value <$> stored !! "updated_at" /\
    stored !! "updated_at" = Some (VDatetime now) /\
    out !! "date" = match CurdEntryUpdate.date payload with
                    | Some s => Some (VStr s)
                    | None => render_value <$> doc !! "date" end /\
    out !! "time" = match CurdEntryUpdate.time payload with
                    | Some s => Some (VStr s)
                    | None => render_value <$> doc !! "time" end /\
    out !! "quantity" = match CurdEntryUpdate.quantity payload with
                        | Some x => Some (VNum x)
                        | None => render_value <$> doc !! "quantity" end /\
    out !! "amount" = match CurdEntryUpdate.amount payload with
                      | Some x => Some (VNum x)
                      | None => render_value <$> doc !! "amount" end /\
    (forall k, k ∉ supplied_keys -> k ≠ "updated_at" -> k ≠ "id" -> k ≠ "_id" ->
       out !! k = render_value <$> doc !! k).
Proof.
  intros Hid Hfind Hp. rewrite update_entry_cases, Hid, Hfind.
  destruct (no_fields_dec payload) as [E|_]; [contradiction|].
  rewrite serialize_Some.
  eexists _, (set_document payload now ∪ doc), _. split; [reflexivity|].
  split.
  { simpl. apply update_one_fst_found; [apply set_document_no_id | exact Hfind]. }
  split; [apply serialize_Some|].
  destruct (proj1 (find_one_Some oid _ doc) Hfind) as (_ & _ & _ & _ & Hdoc).
  apply matches_id_lookup in Hdoc.
  assert ((set_document payload now ∪ doc) !! "_id" = Some (VOid oid)) as Hnew.
  { rewrite lookup_union_r by apply set_document_no_id. exact Hdoc. }
  assert (forall k, (set_document payload now ∪ doc) !! k
                    = match set_document payload now !! k with
                      | Some v => Some v | None => doc !! k end) as L.
  { intros k. rewrite lookup_union.
    destruct (set_document payload now !! k), (doc !! k); reflexivity. }
  split. { rewrite serialize_lookup, Hnew. reflexivity. }
  split. { rewrite serialize_lookup, Hnew. reflexivity. }
  split. { rewrite serialize_lookup, Hnew. reflexivity. }
  split. { rewrite L, set_document_lookup. reflexivity. }
  repeat split;
    try (rewrite serialize_lookup, Hnew; simpl; rewrite ?L, ?set_document_lookup,
           ?model_dump_exclude_none_lookup; simpl;
         try match goal with |- context [ ?f payload ] => destruct (f payload) end;
         reflexivity).
  intros k Hk Hk' Hk1 Hk2. rewrite serialize_lookup, Hnew.
  destruct (decide (k = "id")); [contradiction|].
  destruct (decide (k = "_id")); [contradiction|].
  rewrite L, (set_document_other_key payload now k Hk Hk'). reflexivity.
Qed.

(** X13. With a store handle the listing has one entry for each
    document of the collection: it is as long as the collection, none of
    its entries is [None], and the serialization of every stored document
    is in it. *)
Theorem list_entries_lists_every_document (d : Database) :
  length (list_entries float_repr (Some d)) = length (curdentry d) /\
  Forall (fun e => e ≠ None) (list_entries float_repr (Some d)) /\
  (forall doc, In doc (curdentry d) ->
     In (_serialize float_repr (Some doc)) (list_entries float_repr (Some d))).
Proof.
  unfold list_entries. split; [|split].
  - rewrite length_map. symmetry. apply Permutation_length, sort_perm.
  - apply Forall_forall. intros e He. apply list_elem_of_In, in_map_iff in He.
    destruct He as (doc & <- & _). rewrite serialize_Some. discriminate.
  - intros doc Hin.
    apply (in_map (fun x : document => _serialize float_repr (Some x))).
    eapply Permutation_in; [apply sort_perm | exact Hin].
Qed.

(** Two strongly sorted rearrangements of one another are equal when no
    two different elements are tied. *)
Lemma sorted_rearrangement_unique keys (l1 l2 : list document) :
  StronglySorted (comes_before keys) l1 ->
  StronglySorted (comes_before keys) l2 ->
  Permutation l1 l2 ->
  (forall x y, In x l1 -> In y l1 -> compare_by keys x y = Eq -> x = y) ->
  l1 = l2.
Proof.
  pose proof (total_comparison_compare_by keys) as Hc.
  intros H1. revert l2. induction H1 as [|a l1 Hs1 IH Ha]; intros l2 H2 Hperm Htie.
  - apply Permutation_nil in Hperm. congruence.
  - destruct H2 as [|b l2 Hs2 Hb].
    + apply Permutation_sym, Permutation_nil in Hperm. discriminate.
    + assert (a = b) as <-.
      { assert (In a (b :: l2)) as Hin1
          by (eapply Permutation_in; [exact Hperm | left; reflexivity]).
        assert (In b (a :: l1)) as Hin2
          by (eapply Permutation_in; [symmetry; exact Hperm | left; reflexivity]).
        destruct Hin1 as [->|Hin1]; [reflexivity|].
        destruct Hin2 as [->|Hin2]; [reflexivity|].
        rewrite Forall_forall in Ha, Hb.
        pose proof (Ha b (proj2 (list_elem_of_In _ _) Hin2)) as Hab.
        pose proof (Hb a (proj2 (list_elem_of_In _ _) Hin1)) as Hba.
        apply Htie; [left; reflexivity | right; exact Hin2 |].
        unfold comes_before in Hab, Hba.
        rewrite (cmp_antisym _ Hc a b) in Hba.
        destruct (compare_by keys a b); simpl in Hba; congruence. }
      f_equal. apply IH.
      * exact Hs2.
      * eapply Permutation_cons_inv. exact Hperm.
      * intros x y Hx Hy. apply Htie; right; assumption.
Qed.

(** X14. When no two different documents share their date and time, the
    listing does not depend on the order in which the collection holds
    them. *)
Theorem list_entries_order_independent (d1 d2 : Database) :
  Permutation (curdentry d1) (curdentry d2) ->
  (forall x y, In x (curdentry d1) -> In y (curdentry d1) ->
     compare_by listing_order x y = Eq -> x = y) ->
  list_entries float_repr (Some d1) = list_entries float_repr (Some d2).
Proof.
  intros Hperm Htie. unfold list_entries. fold listing_order. f_equal.
  apply (sorted_rearrangement_unique listing_order).
  - apply sort_sorted.
  - apply sort_sorted.
  - rewrite <- !sort_perm. exact Hperm.
  - intros x y Hx Hy. apply Htie.
    + eapply Permutation_in; [symmetry; apply sort_perm | exact Hx].
    + eapply Permutation_in; [symmetry; apply sort_perm | exact Hy].
Qed.

(** X15. An update addressed to one identifier leaves every entry with
    another identifier as it was: looking it up afterwards gives the same
    document. *)
Theorem update_entry_leaves_other_entries
    (d : Database) (entry_id : string) (payload : CurdEntryUpdate.t)
    (now : datetime) (other : objectid) :
  ObjectId entry_id ≠ Some other ->
  exists d',
    snd (update_entry float_repr (Some d) entry_id payload now) = Some d' /\
    find_one other (curdentry d') = find_one other (curdentry d).
Proof.
  intros Hother. rewrite update_entry_cases.
  destruct (ObjectId entry_id) as [oid|]; [|exists d; split; reflexivity].
  destruct (find_one oid (curdentry d)) as [doc|]; [|exists d; split; reflexivity].
  destruct (no_fields_dec payload); [exists d; split; reflexivity|].
  eexists. split; [reflexivity|]. simpl.
  apply update_one_find_other; [congruence | apply set_document_no_id].
Qed.

(** X16. A delete addressed to one identifier leaves every entry with
    another identifier in the collection, unchanged. *)
Theorem delete_entry_leaves_other_entries
    (d : Database) (entry_id : string) (other : objectid) :
  ObjectId entry_id ≠ Some other ->
  exists d',
    snd (delete_entry (Some d) entry_id) = Some d' /\
    find_one other (curdentry d') = find_one other (curdentry d).
Proof.
  intros Hother. rewrite delete_entry_cases.
  destruct (ObjectId entry_id) as [oid|]; [|exists d; split; reflexivity].
  destruct (find_one oid (curdentry d)) as [doc|]; [|exists d; split; reflexivity].
  eexists. split; [reflexivity|]. simpl.
  apply delete_one_find_other. congruence.
Qed.

(** X17. In the status of [/test], [connection_status] tells whether
    there is a store handle, not whether the probe succeeded: it is
    "Connected" also when the probe raises. [database] is "Not Available"
    exactly without a handle, names are listed only when the probe
    returned them, and none of the three depends on the environment. *)
Theorem test_database_store_fields
    (environ environ' : gmap string string) (db : option Database) :
  let r := test_database environ db in
  (connection_status r = "Connected" <-> db ≠ None) /\
  (connection_status r = "Not Connected" <-> db = None) /\
  (database r = "❌ Not Available" <-> db = None) /\
  (collections r ≠ [] ->
     exists d, db = Some d /\ list_collection_names d = ProbeReturns (collections r)) /\
  database (test_database environ' db) = database r /\
  connection_status (test_database environ' db) = connection_status r /\
  collections (test_database environ' db) = collections r.
Proof.
  unfold test_database.
  destruct db as [d|]; [destruct (list_collection_names d) as [msg|l] eqn:E|]; simpl.
  all: repeat split; try discriminate; try congruence.
  all: try (intros H; contradiction).
  intros _. exists d. split; [reflexivity | exact E].
Qed.

(** X18. The two configuration fields of the status report a variable as
    set exactly when the environment has it with a non-empty value; they
    do not depend on the store. *)
Theorem test_database_configuration_fields
    (environ : gmap string string) (db db' : option Database) :
  let r := test_database environ db in
  (database_url r = "✅ Set"
   <-> exists v, environ !! "DATABASE_URL" = Some v /\ v ≠ "") /\
  (database_name r = "✅ Set"
   <-> exists v, environ !! "DATABASE_NAME" = Some v /\ v ≠ "") /\
  database_url (test_database environ db') = database_url r /\
  database_name (test_database environ db') = database_name r.
Proof.
  assert (forall name,
            (if getenv_truthy environ name then "✅ Set" else "❌ Not Set") = "✅ Set"
            <-> exists v, environ !! name = Some v /\ v ≠ "") as Hset.
  { intros name. unfold getenv_truthy.
    destruct (environ !! name) as [v|].
    - destruct (String.eqb_spec v "") as [->|Hv]; simpl.
      + split; [discriminate|]. intros (v & [= <-] & Hv). contradiction.
      + split; [|reflexivity]. intros _. exists v. split; [reflexivity | exact Hv].
    - split; [discriminate|]. intros (v & Hv & _). discriminate. }
  unfold test_database.
  destruct db as [d|], db' as [d'|];
    try destruct (list_collection_names d); try destruct (list_collection_names d');
    simpl; repeat split; try apply Hset.
Qed.

Lemma update_one_agree oid (u : document) docs :
  Forall2 (agree_outside u) docs (update_one oid u docs).1.
Proof.
  induction docs as [|d docs IH]; simpl; [constructor|].
  destruct (matches_id oid d).
  - simpl. constructor.
    + intros k Hk. rewrite lookup_union_r by exact Hk. reflexivity.
    + apply Forall2_same_length_lookup. split; [reflexivity|].
      intros i x y Hx Hy k _. congruence.
  - destruct (update_one oid u docs) as [rest n]. simpl in *.
    constructor; [intros k _; reflexivity | exact IH].
Qed.

Lemma serialize_id_field (doc doc' : document) :
  doc !! "_id" = doc' !! "_id" -> doc !! "id" = doc' !! "id" ->
  _serialize float_repr (Some doc) ≫= (fun m : document => m !! "id")
  = _serialize float_repr (Some doc') ≫= (fun m : document => m !! "id").
Proof.
  intros H1 H2. rewrite !serialize_Some. simpl.
  rewrite !serialize_lookup, H1, H2. reflexivity.
Qed.

(** X19. A successful delete makes the listing one entry shorter and
    adds nothing to it: every entry listed afterwards was listed before. *)
Theorem delete_entry_shrinks_listing
    (d : Database) (entry_id : string) (r : ack) (db' : option Database) :
  delete_entry (Some d) entry_id = (Returns r, db') ->
  S (length (list_entries float_repr db')) = length (list_entries float_repr (Some d)) /\
  (forall e, In e (list_entries float_repr db') -> In e (list_entries float_repr (Some d))).
Proof.
  unfold delete_entry at 1.
  destruct (ObjectId entry_id) as [oid|] eqn:Hid; [|discriminate].
  destruct (find_one oid (curdentry d)) as [doc|] eqn:Hfind.
  2: { rewrite (delete_one_missing oid _ Hfind). discriminate. }
  destruct (proj1 (find_one_Some oid _ doc) Hfind) as (pre & post & Hdocs & Hpre & Hdoc).
  rewrite Hdocs, (delete_one_found oid pre doc post Hpre Hdoc). simpl.
  intros [= _ <-]. unfold list_entries. simpl curdentry. rewrite Hdocs. split.
  - rewrite !length_map, <- !(Permutation_length (sort_perm _ _)), !length_app.
    simpl. lia.
  - intros e. rewrite !in_map_iff. intros (x & <- & Hx). exists x. split; [reflexivity|].
    eapply Permutation_in; [apply sort_perm|].
    eapply Permutation_in in Hx; [|symmetry; apply sort_perm].
    apply in_app_iff in Hx. apply in_app_iff.
    destruct Hx as [Hx|Hx]; [left | right; right]; exact Hx.
Qed.

Lemma sorted_unique {A : Type} (c : A -> A -> comparison) (l1 l2 : list A) :
  total_comparison c ->
  StronglySorted (fun x y => c x y ≠ Gt) l1 ->
  StronglySorted (fun x y => c x y ≠ Gt) l2 ->
  Permutation l1 l2 ->
  (forall x y, In x l1 -> In y l1 -> c x y = Eq -> x = y) ->
  l1 = l2.
Proof.
  intros Hc H1. revert l2. induction H1 as [|a l1 Hs1 IH Ha]; intros l2 H2 Hperm Htie.
  - apply Permutation_nil in Hperm. congruence.
  - destruct H2 as [|b l2 Hs2 Hb].
    + apply Permutation_sym, Permutation_nil in Hperm. discriminate.
    + assert (a = b) as <-.
      { assert (In a (b :: l2)) as Hin1
          by (eapply Permutation_in; [exact Hperm | left; reflexivity]).
        assert (In b (a :: l1)) as Hin2
          by (eapply Permutation_in; [symmetry; exact Hperm | left; reflexivity]).
        destruct Hin1 as [->|Hin1]; [reflexivity|].
        destruct Hin2 as [->|Hin2]; [reflexivity|].
        rewrite Forall_forall in Ha, Hb.
        pose proof (Ha b (proj2 (list_elem_of_In _ _) Hin2)) as Hab.
        pose proof (Hb a (proj2 (list_elem_of_In _ _) Hin1)) as Hba.
        apply Htie; [left; reflexivity | right; exact Hin2 |].
        simpl in Hab, Hba. rewrite (cmp_antisym _ Hc a b) in Hba.
        destruct (c a b); simpl in Hba; congruence. }
      f_equal. apply IH.
      * exact Hs2.
      * eapply Permutation_cons_inv. exact Hperm.
      * intros x y Hx Hy. apply Htie; right; assumption.
Qed.

Lemma strongly_sorted_map {A B : Type} (f : A -> B) (R : B -> B -> Prop) (l : list A) :
  StronglySorted (fun x y => R (f x) (f y)) l -> StronglySorted R (map f l).
Proof.
  induction 1 as [|a l Hl IH Ha]; simpl; constructor; [exact IH|].
  rewrite Forall_forall in Ha. apply Forall_forall. intros y Hy.
  apply list_elem_of_In, in_map_iff in Hy. destruct Hy as (x & <- & Hx).
  apply Ha, list_elem_of_In, Hx.
Qed.

Lemma total_comparison_listing_key : total_comparison listing_key_compare.
Proof.
  unfold listing_key_compare.
  apply (total_comparison_lex
           (fun a b : option value * option value * option value * option value =>
              directed (-1) (bson_compare a.1.1.1 b.1.1.1))).
  - apply (total_comparison_directed (-1)
             (fun a b : option value * option value * option value * option value =>
                bson_compare a.1.1.1 b.1.1.1)).
    apply (total_comparison_on
             (fun a : option value * option value * option value * option value =>
                a.1.1.1) bson_compare total_comparison_bson).
  - apply (total_comparison_lex
             (fun a b : option value * option value * option value * option value =>
                directed (-1) (bson_compare a.1.1.2 b.1.1.2))).
    + apply (total_comparison_directed (-1)
               (fun a b : option value * option value * option value * option value =>
                  bson_compare a.1.1.2 b.1.1.2)).
      apply (total_comparison_on
               (fun a : option value * option value * option value * option value =>
                  a.1.1.2) bson_compare total_comparison_bson).
    + split; intros; reflexivity || discriminate.
Qed.

Lemma compare_by_listing_key (x y : document) :
  compare_by listing_order x y = listing_key_compare (listing_key x) (listing_key y).
Proof. reflexivity. Qed.

Lemma agree_listing_key (u : document) l l' :
  u !! "date" = None -> u !! "time" = None -> u !! "_id" = None -> u !! "id" = None ->
  Forall2 (agree_outside u) l l' ->
  map listing_key l' = map listing_key l.
Proof.
  intros Hd Ht Hi Hj. induction 1 as [|a b l l' Hab Hl IH]; simpl; [reflexivity|].
  rewrite IH. unfold listing_key.
  rewrite (Hab "date" Hd), (Hab "time" Ht), (Hab "_id" Hi), (Hab "id" Hj). reflexivity.
Qed.

Lemma listing_key_gives_id (l l' : list document) :
  map listing_key l' = map listing_key l ->
  map (fun x : document =>
         _serialize float_repr (Some x) ≫= (fun m : document => m !! "id")) l'
  = map (fun x : document =>
           _serialize float_repr (Some x) ≫= (fun m : document => m !! "id")) l.
Proof.
  revert l. induction l' as [|b l' IH]; intros [|a l]; cbn [map]; try discriminate;
    [reflexivity|].
  intros [= Hd Ht Hi Hj Hrest]. rewrite (IH l Hrest). f_equal.
  apply serialize_id_field; assumption.
Qed.

(** The keys of the documents, in the order of any sorted rearrangement,
    are determined by the keys of the collection when no two different
    documents are tied. *)
Lemma sorted_listing_keys (l l' s s' : list document) :
  map listing_key l' = map listing_key l ->
  (forall x y, In x l -> In y l -> compare_by listing_order x y = Eq -> x = y) ->
  Permutation l s -> StronglySorted (comes_before listing_order) s ->
  Permutation l' s' -> StronglySorted (comes_before listing_order) s' ->
  map listing_key s' = map listing_key s.
Proof.
  intros Hkeys Htie Hp Hs Hp' Hs'. symmetry.
  apply (sorted_unique listing_key_compare).
  - apply total_comparison_listing_key.
  - apply (strongly_sorted_map listing_key (fun a b => listing_key_compare a b ≠ Gt)).
    exact Hs.
  - apply (strongly_sorted_map listing_key (fun a b => listing_key_compare a b ≠ Gt)).
    exact Hs'.
  - rewrite <- (Permutation_map listing_key Hp), <- (Permutation_map listing_key Hp').
    rewrite Hkeys. reflexivity.
  - intros a b Ha Hb Hab.
    apply in_map_iff in Ha as (x & <- & Hx). apply in_map_iff in Hb as (y & <- & Hy).
    rewrite <- compare_by_listing_key in Hab. f_equal.
    apply Htie; [| |exact Hab]; eapply Permutation_in; try eassumption;
      symmetry; exact Hp.
Qed.

Lemma update_entry_listing_keys
    (d d' : Database) (entry_id : string) (payload : CurdEntryUpdate.t) (now : datetime) :
  CurdEntryUpdate.date payload = None ->
  CurdEntryUpdate.time payload = None ->
  snd (update_entry float_repr (Some d) entry_id payload now) = Some d' ->
  map listing_key (curdentry d') = map listing_key (curdentry d).
Proof.
  intros Hdate Htime. rewrite update_entry_cases.
  destruct (ObjectId entry_id) as [oid|]; [|intros [= <-]; reflexivity].
  destruct (find_one oid (curdentry d)) as [doc|]; [|intros [= <-]; reflexivity].
  destruct (no_fields_dec payload); [intros [= <-]; reflexivity|].
  intros [= <-]. simpl curdentry.
  apply (agree_listing_key (set_document payload now)); [| | | |apply update_one_agree];
    rewrite set_document_lookup, model_dump_exclude_none_lookup; simpl;
    rewrite ?Hdate, ?Htime; reflexivity.
Qed.

(** X20. When no two different documents share their date and time, an
    update that supplies neither [date] nor [time] does not reorder the
    listing: the identifiers appear in the same sequence before and
    after, whichever sorted rearrangement of the collection the store
    returns, and so in [list_entries]. *)
Theorem update_entry_keeps_listing_order
    (d d' : Database) (entry_id : string) (payload : CurdEntryUpdate.t) (now : datetime) :
  CurdEntryUpdate.date payload = None ->
  CurdEntryUpdate.time payload = None ->
  (forall x y, In x (curdentry d) -> In y (curdentry d) ->
     compare_by listing_order x y = Eq -> x = y) ->
  snd (update_entry float_repr (Some d) entry_id payload now) = Some d' ->
  (forall s s' : list document,
     Permutation (curdentry d) s -> StronglySorted (comes_before listing_order) s ->
     Permutation (curdentry d') s' -> StronglySorted (comes_before listing_order) s' ->
     map (fun x : document =>
            _serialize float_repr (Some x) ≫= (fun m : document => m !! "id")) s'
     = map (fun x : document =>
              _serialize float_repr (Some x) ≫= (fun m : document => m !! "id")) s) /\
  map (fun e : option document => e ≫= (fun m : document => m !! "id"))
      (list_entries float_repr (Some d'))
  = map (fun e : option document => e ≫= (fun m : document => m !! "id"))
        (list_entries float_repr (Some d)).
Proof.
  intros Hdate Htime Htie Hupd.
  pose proof (update_entry_listing_keys d d' entry_id payload now Hdate Htime Hupd)
    as Hkeys.
  assert (forall s s' : list document,
            Permutation (curdentry d) s ->
            StronglySorted (comes_before listing_order) s ->
            Permutation (curdentry d') s' ->
            StronglySorted (comes_before listing_order) s' ->
            map (fun x : document =>
                   _serialize float_repr (Some x) ≫= (fun m : document => m !! "id")) s'
            = map (fun x : document =>
                     _serialize float_repr (Some x) ≫= (fun m : document => m !! "id")) s)
    as Hany.
  { intros s s' Hp Hs Hp' Hs'. apply listing_key_gives_id.
    apply (sorted_listing_keys (curdentry d) (curdentry d')); assumption. }
  split; [exact Hany|].
  unfold list_entries. fold listing_order. rewrite !map_map.
  apply Hany; first [apply sort_perm | apply sort_sorted].
Qed.

End MoreProperties.

(** ** The further properties at the sample store *)

Lemma serialize_keys_witness :
  dom (render_value <$> rename_id sample_float_repr sample_e1)
  = {["id"]} ∪ dom sample_e1 ∖ {["_id"]}.
Proof.
  exact (serialize_keys sample_float_repr sample_e1 _
           (serialize_Some sample_float_repr sample_e1)).
Defined.

Lemma delete_entry_removes_the_entry_witness :
  exists pre post,
    curdentry sample_db = (pre ++ sample_e2 :: post)%list /\
    find_one (Oid "507f1f77bcf86cd799439012") pre = None /\
    delete_entry (Some sample_db) "507f1f77bcf86cd799439012"
    = (Returns {| ok := true |}, Some (with_collection sample_db (pre ++ post)%list)) /\
    S (length (pre ++ post)%list) = length (curdentry sample_db).
Proof.
  apply (delete_entry_removes_the_entry sample_db "507f1f77bcf86cd799439012"
           (Oid "507f1f77bcf86cd799439012") sample_e2).
  - reflexivity.
  - reflexivity.
Defined.

Lemma delete_entry_then_gone_witness :
  exists d',
    Some (with_collection sample_db [sample_e1; sample_e3]) = Some d' /\
    find_one (Oid "507f1f77bcf86cd799439012") (curdentry d') = None /\
    delete_entry (Some (with_collection sample_db [sample_e1; sample_e3]))
      "507f1f77bcf86cd799439012"
    = (HTTPException 404 "Not found",
       Some (with_collection sample_db [sample_e1; sample_e3])) /\
    update_entry sample_float_repr (Some (with_collection sample_db [sample_e1; sample_e3]))
      "507f1f77bcf86cd799439012" sample_payload sample_now
    = (HTTPException 404 "Not found",
       Some (with_collection sample_db [sample_e1; sample_e3])).
Proof.
  apply (delete_entry_then_gone sample_float_repr sample_db "507f1f77bcf86cd799439012"
           (Oid "507f1f77bcf86cd799439012") sample_payload sample_now {| ok := true |}).
  - reflexivity.
  - vm_compute. lia.
  - reflexivity.
Defined.

Lemma update_entry_outcomes_witness :
  (exists e, fst (update_entry sample_float_repr (Some sample_db)
                    "507f1f77bcf86cd799439011" sample_payload sample_now)
             = Returns (Some e)) /\
  fst (update_entry sample_float_repr (Some sample_db)
         "507f1f77bcf86cd7994390ff" sample_payload sample_now)
  = HTTPException 404 "Not found".
Proof.
  split.
  - pose proof (update_entry_outcomes sample_float_repr (Some sample_db)
                  "507f1f77bcf86cd799439011" sample_payload sample_now) as H.
    cbv zeta in H. destruct H as (_ & _ & _ & Hret & _).
    apply Hret. exists sample_db, (Oid "507f1f77bcf86cd799439011"), sample_e1.
    repeat split.
  - pose proof (update_entry_outcomes sample_float_repr (Some sample_db)
                  "507f1f77bcf86cd7994390ff" sample_payload sample_now) as H.
    cbv zeta in H. destruct H as (_ & _ & Hmiss & _).
    apply Hmiss. exists sample_db, (Oid "507f1f77bcf86cd7994390ff").
    repeat split.
Defined.

Lemma delete_entry_outcomes_witness :
  fst (delete_entry (Some sample_db) "507f1f77bcf86cd799439013") = Returns {| ok := true |} /\
  fst (delete_entry (Some sample_db) "xyz") = HTTPException 400 "Invalid id".
Proof.
  split.
  - pose proof (delete_entry_outcomes (Some sample_db) "507f1f77bcf86cd799439013") as H.
    cbv zeta in H. destruct H as (_ & _ & _ & Hret & _).
    apply Hret. exists sample_db, (Oid "507f1f77bcf86cd799439013"), sample_e3.
    repeat split.
  - pose proof (delete_entry_outcomes (Some sample_db) "xyz") as H.
    cbv zeta in H. destruct H as (_ & Hbad & _).
    apply Hbad. split; [discriminate | reflexivity].
Defined.

Lemma failed_write_keeps_store_witness :
  snd (update_entry sample_float_repr (Some sample_db) "507f1f77bcf86cd7994390ff"
         sample_payload sample_now) = Some sample_db /\
  snd (delete_entry (Some sample_db) "xyz") = Some sample_db.
Proof.
  split.
  - apply (proj1 (failed_write_keeps_store sample_float_repr (Some sample_db)
                    "507f1f77bcf86cd7994390ff" sample_payload sample_now
                    404 "Not found")).
    reflexivity.
  - apply (proj2 (failed_write_keeps_store sample_float_repr (Some sample_db)
                    "xyz" sample_payload sample_now 400 "Invalid id")).
    reflexivity.
Defined.

Lemma update_entry_then_read_back_witness :
  exists e db',
    update_entry sample_float_repr (Some sample_db) "507f1f77bcf86cd799439011"
      sample_payload sample_now = (Returns e, db') /\
    update_entry sample_float_repr db' "507f1f77bcf86cd799439011" no_fields
      (Datetime 2024 1 4 0 0 0 0) = (Returns e, db').
Proof.
  eexists _, _. split; [reflexivity|].
  apply (update_entry_then_read_back sample_float_repr (Some sample_db) _
           "507f1f77bcf86cd799439011" sample_payload sample_now).
  reflexivity.
Defined.

Lemma update_entry_idempotent_witness :
  exists r db',
    update_entry sample_float_repr (Some sample_db) "507f1f77bcf86cd799439011"
      sample_payload sample_now = (r, db') /\
    update_entry sample_float_repr db' "507f1f77bcf86cd799439011"
      sample_payload sample_now = (r, db').
Proof.
  eexists _, _. split; [reflexivity|].
  apply (update_entry_idempotent sample_float_repr (Some sample_db)).
  reflexivity.
Defined.

Lemma update_entry_response_witness :
  exists (d' : Database) (stored out : document),
    update_entry sample_float_repr (Some sample_db) "507f1f77bcf86cd799439011"
      sample_payload sample_now = (Returns (Some out), Some d') /\
    find_one (Oid "507f1f77bcf86cd799439011") (curdentry d') = Some stored /\
    _serialize sample_float_repr (Some stored) = Some out /\
    out !! "id" = Some (VStr "507f1f77bcf86cd799439011") /\
    stored !! "updated_at" = Some (VDatetime sample_now) /\
    out !! "updated_at" = Some (VStr "2024-01-03T12:30:15") /\
    out !! "quantity" = Some (VNum (Qmake 5 1)) /\
    out !! "amount" = Some (VNum (Qmake 7 2)).
Proof.
  destruct (update_entry_response sample_float_repr sample_db "507f1f77bcf86cd799439011"
              (Oid "507f1f77bcf86cd799439011") sample_payload sample_now sample_e1
              eq_refl eq_refl ltac:(discriminate))
    as (d' & stored & out & Hret & Hfind & Hser & Hid & _ & Hstamp & Hstored
        & _ & _ & Hq & Ha & _).
  exists d', stored, out.
  repeat split; try assumption.
  rewrite Hstamp, Hstored. reflexivity.
Defined.

Lemma list_entries_lists_every_document_witness :
  In (_serialize sample_float_repr (Some sample_e2))
     (list_entries sample_float_repr (Some sample_db)).
Proof.
  apply (proj2 (proj2 (list_entries_lists_every_document sample_float_repr sample_db))).
  right. left. reflexivity.
Defined.

Lemma list_entries_order_independent_witness :
  list_entries sample_float_repr (Some sample_db_reordered)
  = list_entries sample_float_repr (Some sample_db).
Proof.
  apply (list_entries_order_independent sample_float_repr sample_db_reordered sample_db).
  - apply (Permutation_cons_append [sample_e1; sample_e2] sample_e3).
  - intros x y Hx Hy.
    destruct Hx as [<-|[<-|[<-|[]]]]; destruct Hy as [<-|[<-|[<-|[]]]];
      first [ reflexivity | intros H; vm_compute in H; discriminate H ].
Defined.

Lemma update_entry_leaves_other_entries_witness :
  exists d',
    snd (update_entry sample_float_repr (Some sample_db) "507f1f77bcf86cd799439011"
           sample_payload sample_now) = Some d' /\
    find_one (Oid "507f1f77bcf86cd799439012") (curdentry d')
    = find_one (Oid "507f1f77bcf86cd799439012") (curdentry sample_db).
Proof.
  apply (update_entry_leaves_other_entries sample_float_repr sample_db
           "507f1f77bcf86cd799439011" sample_payload sample_now
           (Oid "507f1f77bcf86cd799439012")).
  vm_compute. discriminate.
Defined.

Lemma delete_entry_leaves_other_entries_witness :
  exists d',
    snd (delete_entry (Some sample_db) "507f1f77bcf86cd799439011") = Some d' /\
    find_one (Oid "507f1f77bcf86cd799439012") (curdentry d')
    = find_one (Oid "507f1f77bcf86cd799439012") (curdentry sample_db).
Proof.
  apply (delete_entry_leaves_other_entries sample_db "507f1f77bcf86cd799439011"
           (Oid "507f1f77bcf86cd799439012")).
  vm_compute. discriminate.
Defined.

Lemma test_database_store_fields_witness :
  connection_status (test_database ∅ (Some sample_db_down)) = "Connected" /\
  collections (test_database ∅ (Some sample_db_down)) = [].
Proof.
  pose proof (test_database_store_fields ∅ ∅ (Some sample_db_down)) as H.
  cbv zeta in H. destruct H as (Hconn & _).
  split; [apply Hconn; discriminate | reflexivity].
Defined.

Lemma test_database_configuration_fields_witness :
  database_url (test_database {[ "DATABASE_URL" := "mongodb://localhost" ]} None)
  = "✅ Set" /\
  database_url (test_database {[ "DATABASE_URL" := "" ]} None) ≠ "✅ Set".
Proof.
  split.
  - pose proof (test_database_configuration_fields
                  {[ "DATABASE_URL" := "mongodb://localhost" ]} None None) as H.
    cbv zeta in H. destruct H as (Hurl & _).
    apply Hurl. exists "mongodb://localhost". split; [reflexivity | discriminate].
  - pose proof (test_database_configuration_fields
                  {[ "DATABASE_URL" := "" ]} None None) as H.
    cbv zeta in H. destruct H as (Hurl & _).
    intros Hset. apply Hurl in Hset. destruct Hset as (v & Hv & Hne).
    vm_compute in Hv. congruence.
Defined.

Lemma delete_entry_shrinks_listing_witness :
  S (length (list_entries sample_float_repr
               (Some (with_collection sample_db [sample_e1; sample_e3]))))
  = length (list_entries sample_float_repr (Some sample_db)) /\
  (forall e,
     In e (list_entries sample_float_repr
             (Some (with_collection sample_db [sample_e1; sample_e3]))) ->
     In e (list_entries sample_float_repr (Some sample_db))).
Proof.
  apply (delete_entry_shrinks_listing sample_float_repr sample_db
           "507f1f77bcf86cd799439012" {| ok := true |}).
  reflexivity.
Defined.

Lemma update_entry_keeps_listing_order_witness :
  exists d',
    snd (update_entry sample_float_repr (Some sample_db) "507f1f77bcf86cd799439011"
           sample_payload sample_now) = Some d' /\
    map (fun e : option document => e ≫= (fun m : document => m !! "id"))
        (list_entries sample_float_repr (Some d'))
    = map (fun e : option document => e ≫= (fun m : document => m !! "id"))
          (list_entries sample_float_repr (Some sample_db)).
Proof.
  eexists. split; [reflexivity|].
  apply (update_entry_keeps_listing_order sample_float_repr sample_db _
           "507f1f77bcf86cd799439011" sample_payload sample_now).
  - reflexivity.
  - reflexivity.
  - intros x y Hx Hy.
    destruct Hx as [<-|[<-|[<-|[]]]]; destruct Hy as [<-|[<-|[<-|[]]]];
      first [ reflexivity | intros H; vm_compute in H; discriminate H ].
  - reflexivity.
Defined.
